(** * Agilent 34410A IVI DMM driver: a shallow embedding and its properties

    The development follows [ivi/agilent/agilent34410A.py].  The driver is
    a Python class whose methods mutate [self] and talk to the instrument
    through the I/O primitives of the [ivi.Driver] base class.  Methods
    are embedded as functions in a state-and-exception monad over the
    record [driver]; a raised exception keeps the mutations done before
    it, as in Python. *)

From Stdlib Require Import ZArith String Ascii List Bool Lia.
From Stdlib Require Import Floats.PrimFloat Floats.SpecFloat Floats.FloatOps.
From stdpp Require Import gmap strings list pretty.

Local Open Scope Z_scope.
Local Open Scope string_scope.

(** ** Python values and exceptions *)

(** The scalar values a caller can hand to the accessors. *)
Inductive pyval : Type :=
| PyNone
| PyBool (b : bool)
| PyInt (n : Z)
| PyFloat (x : float)
| PyStr (s : string).

(** Exceptions.  [NameError], [TypeError], [ValueError], [OverflowError],
    [IndexError], [KeyError] and [AttributeError] are Python's own;
    [ValueNotSupportedException] and [OutOfRangeException] are the two
    classes of the [ivi] module the driver refers to (the specification
    calls them ValueNotSupportedError and IndexOutOfRangeError);
    [TransportError] is the I/O failure of the transport, and
    [DeviceResponseError] the response error kind of the specification,
    which no statement of the driver raises. *)
Inductive exn : Type :=
| NameError (name : string)
| TypeError
| ValueError
| OverflowError
| IndexError
| KeyError
| AttributeError
| ValueNotSupportedException
| OutOfRangeException
| TransportError
| DeviceResponseError.

Inductive outcome (A : Type) : Type :=
| Return (a : A)
| Raise (e : exn).
Arguments Return {A} a.
Arguments Raise {A} e.

(** ** Transport events *)

(** One entry per call of an I/O primitive, oldest first; [ESleep] records
    a call of [time.sleep]. *)
Inductive io_event : Type :=
| EWrite (cmd : string)
| EAsk (cmd : string)
| ERead
| ESleep (seconds : Z).

Definition is_write (e : io_event) : bool :=
  match e with
  | EWrite _ => true
  | _ => false
  end.


(** ** Driver state *)

(** The attributes of [self] that the methods below read or write, the
    validity flags of the attribute cache, and the two sides of the
    transport: the calls made so far and the responses the instrument
    will deliver to the next queries. *)
Record driver : Type := {
  _driver_operation_simulate : bool;
  _memory_size : Z;
  _identity_instrument_manufacturer : string;
  _identity_instrument_model : string;
  _identity_instrument_firmware_revision : string;
  _measurement_function : pyval;
  _range : pyval;
  _auto_range : pyval;
  _resolution : pyval;
  _trigger_delay : pyval;
  _trigger_delay_auto : pyval;
  _trigger_source : pyval;
  _cache_valid : gmap string bool;
  io_log : list io_event;
  io_pending : list string
}.

Definition with_identity_instrument_manufacturer (v : string) (d : driver) : driver :=
  {| _driver_operation_simulate := _driver_operation_simulate d;
     _memory_size := _memory_size d;
     _identity_instrument_manufacturer := v;
     _identity_instrument_model := _identity_instrument_model d;
     _identity_instrument_firmware_revision := _identity_instrument_firmware_revision d;
     _measurement_function := _measurement_function d;
     _range := _range d;
     _auto_range := _auto_range d;
     _resolution := _resolution d;
     _trigger_delay := _trigger_delay d;
     _trigger_delay_auto := _trigger_delay_auto d;
     _trigger_source := _trigger_source d;
     _cache_valid := _cache_valid d;
     io_log := io_log d;
     io_pending := io_pending d |}.

Definition with_identity_instrument_model (v : string) (d : driver) : driver :=
  {| _driver_operation_simulate := _driver_operation_simulate d;
     _memory_size := _memory_size d;
     _identity_instrument_manufacturer := _identity_instrument_manufacturer d;
     _identity_instrument_model := v;
     _identity_instrument_firmware_revision := _identity_instrument_firmware_revision d;
     _measurement_function := _measurement_function d;
     _range := _range d;
     _auto_range := _auto_range d;
     _resolution := _resolution d;
     _trigger_delay := _trigger_delay d;
     _trigger_delay_auto := _trigger_delay_auto d;
     _trigger_source := _trigger_source d;
     _cache_valid := _cache_valid d;
     io_log := io_log d;
     io_pending := io_pending d |}.

Definition with_identity_instrument_firmware_revision (v : string) (d : driver) : driver :=
  {| _driver_operation_simulate := _driver_operation_simulate d;
     _memory_size := _memory_size d;
     _identity_instrument_manufacturer := _identity_instrument_manufacturer d;
     _identity_instrument_model := _identity_instrument_model d;
     _identity_instrument_firmware_revision := v;
     _measurement_function := _measurement_function d;
     _range := _range d;
     _auto_range := _auto_range d;
     _resolution := _resolution d;
     _trigger_delay := _trigger_delay d;
     _trigger_delay_auto := _trigger_delay_auto d;
     _trigger_source := _trigger_source d;
     _cache_valid := _cache_valid d;
     io_log := io_log d;
     io_pending := io_pending d |}.

Definition with_measurement_function (v : pyval) (d : driver) : driver :=
  {| _driver_operation_simulate := _driver_operation_simulate d;
     _memory_size := _memory_size d;
     _identity_instrument_manufacturer := _identity_instrument_manufacturer d;
     _identity_instrument_model := _identity_instrument_model d;
     _identity_instrument_firmware_revision := _identity_instrument_firmware_revision d;
     _measurement_function := v;
     _range := _range d;
     _auto_range := _auto_range d;
     _resolution := _resolution d;
     _trigger_delay := _trigger_delay d;
     _trigger_delay_auto := _trigger_delay_auto d;
     _trigger_source := _trigger_source d;
     _cache_valid := _cache_valid d;
     io_log := io_log d;
     io_pending := io_pending d |}.

Definition with_range (v : pyval) (d : driver) : driver :=
  {| _driver_operation_simulate := _driver_operation_simulate d;
     _memory_size := _memory_size d;
     _identity_instrument_manufacturer := _identity_instrument_manufacturer d;
     _identity_instrument_model := _identity_instrument_model d;
     _identity_instrument_firmware_revision := _identity_instrument_firmware_revision d;
     _measurement_function := _measurement_function d;
     _range := v;
     _auto_range := _auto_range d;
     _resolution := _resolution d;
     _trigger_delay := _trigger_delay d;
     _trigger_delay_auto := _trigger_delay_auto d;
     _trigger_source := _trigger_source d;
     _cache_valid := _cache_valid d;
     io_log := io_log d;
     io_pending := io_pending d |}.

Definition with_auto_range (v : pyval) (d : driver) : driver :=
  {| _driver_operation_simulate := _driver_operation_simulate d;
     _memory_size := _memory_size d;
     _identity_instrument_manufacturer := _identity_instrument_manufacturer d;
     _identity_instrument_model := _identity_instrument_model d;
     _identity_instrument_firmware_revision := _identity_instrument_firmware_revision d;
     _measurement_function := _measurement_function d;
     _range := _range d;
     _auto_range := v;
     _resolution := _resolution d;
     _trigger_delay := _trigger_delay d;
     _trigger_delay_auto := _trigger_delay_auto d;
     _trigger_source := _trigger_source d;
     _cache_valid := _cache_valid d;
     io_log := io_log d;
     io_pending := io_pending d |}.

Definition with_resolution (v : pyval) (d : driver) : driver :=
  {| _driver_operation_simulate := _driver_operation_simulate d;
     _memory_size := _memory_size d;
     _identity_instrument_manufacturer := _identity_instrument_manufacturer d;
     _identity_instrument_model := _identity_instrument_model d;
     _identity_instrument_firmware_revision := _identity_instrument_firmware_revision d;
     _measurement_function := _measurement_function d;
     _range := _range d;
     _auto_range := _auto_range d;
     _resolution := v;
     _trigger_delay := _trigger_delay d;
     _trigger_delay_auto := _trigger_delay_auto d;
     _trigger_source := _trigger_source d;
     _cache_valid := _cache_valid d;
     io_log := io_log d;
     io_pending := io_pending d |}.

Definition with_trigger_delay (v : pyval) (d : driver) : driver :=
  {| _driver_operation_simulate := _driver_operation_simulate d;
     _memory_size := _memory_size d;
     _identity_instrument_manufacturer := _identity_instrument_manufacturer d;
     _identity_instrument_model := _identity_instrument_model d;
     _identity_instrument_firmware_revision := _identity_instrument_firmware_revision d;
     _measurement_function := _measurement_function d;
     _range := _range d;
     _auto_range := _auto_range d;
     _resolution := _resolution d;
     _trigger_delay := v;
     _trigger_delay_auto := _trigger_delay_auto d;
     _trigger_source := _trigger_source d;
     _cache_valid := _cache_valid d;
     io_log := io_log d;
     io_pending := io_pending d |}.

Definition with_trigger_delay_auto (v : pyval) (d : driver) : driver :=
  {| _driver_operation_simulate := _driver_operation_simulate d;
     _memory_size := _memory_size d;
     _identity_instrument_manufacturer := _identity_instrument_manufacturer d;
     _identity_instrument_model := _identity_instrument_model d;
     _identity_instrument_firmware_revision := _identity_instrument_firmware_revision d;
     _measurement_function := _measurement_function d;
     _range := _range d;
     _auto_range := _auto_range d;
     _resolution := _resolution d;
     _trigger_delay := _trigger_delay d;
     _trigger_delay_auto := v;
     _trigger_source := _trigger_source d;
     _cache_valid := _cache_valid d;
     io_log := io_log d;
     io_pending := io_pending d |}.

Definition with_trigger_source (v : pyval) (d : driver) : driver :=
  {| _driver_operation_simulate := _driver_operation_simulate d;
     _memory_size := _memory_size d;
     _identity_instrument_manufacturer := _identity_instrument_manufacturer d;
     _identity_instrument_model := _identity_instrument_model d;
     _identity_instrument_firmware_revision := _identity_instrument_firmware_revision d;
     _measurement_function := _measurement_function d;
     _range := _range d;
     _auto_range := _auto_range d;
     _resolution := _resolution d;
     _trigger_delay := _trigger_delay d;
     _trigger_delay_auto := _trigger_delay_auto d;
     _trigger_source := v;
     _cache_valid := _cache_valid d;
     io_log := io_log d;
     io_pending := io_pending d |}.

Definition with_cache_valid (v : gmap string bool) (d : driver) : driver :=
  {| _driver_operation_simulate := _driver_operation_simulate d;
     _memory_size := _memory_size d;
     _identity_instrument_manufacturer := _identity_instrument_manufacturer d;
     _identity_instrument_model := _identity_instrument_model d;
     _identity_instrument_firmware_revision := _identity_instrument_firmware_revision d;
     _measurement_function := _measurement_function d;
     _range := _range d;
     _auto_range := _auto_range d;
     _resolution := _resolution d;
     _trigger_delay := _trigger_delay d;
     _trigger_delay_auto := _trigger_delay_auto d;
     _trigger_source := _trigger_source d;
     _cache_valid := v;
     io_log := io_log d;
     io_pending := io_pending d |}.

Definition with_io (l : list io_event) (p : list string) (d : driver) : driver :=
  {| _driver_operation_simulate := _driver_operation_simulate d;
     _memory_size := _memory_size d;
     _identity_instrument_manufacturer := _identity_instrument_manufacturer d;
     _identity_instrument_model := _identity_instrument_model d;
     _identity_instrument_firmware_revision := _identity_instrument_firmware_revision d;
     _measurement_function := _measurement_function d;
     _range := _range d;
     _auto_range := _auto_range d;
     _resolution := _resolution d;
     _trigger_delay := _trigger_delay d;
     _trigger_delay_auto := _trigger_delay_auto d;
     _trigger_source := _trigger_source d;
     _cache_valid := _cache_valid d;
     io_log := l;
     io_pending := p |}.

(** ** The method monad *)

Definition M (A : Type) : Type := driver -> outcome A * driver.

Definition ret {A} (a : A) : M A := fun d => (Return a, d).

Definition raise {A} (e : exn) : M A := fun d => (Raise e, d).

Definition bind {A B} (m : M A) (k : A -> M B) : M B :=
  fun d =>
    match m d with
    | (Return a, d') => k a d'
    | (Raise e, d') => (Raise e, d')
    end.

Definition gets {A} (f : driver -> A) : M A := fun d => (Return (f d), d).

Definition modify (f : driver -> driver) : M unit := fun d => (Return tt, f d).

Declare Scope py_scope.
Delimit Scope py_scope with py.
Notation "x <- m ;; k" := (bind m (fun x => k))
  (at level 100, m at next level, right associativity) : py_scope.
Notation "m ;;; k" := (bind m (fun _ => k))
  (at level 100, right associativity) : py_scope.
Local Open Scope py_scope.

Definition lift {A} (r : exn + A) : M A :=
  match r with
  | inl e => raise e
  | inr a => ret a
  end.

(** ** Python built-ins *)

(** The conversions of Python's [float], [int] and [str] that go through
    text or through floating-point rounding are an interface of the
    interpreter; the driver is verified against any implementation of
    it.  An error is the exception the built-in raises. *)
Class Builtins : Type := {
  float_of_string : string -> exn + float;
  float_of_Z : Z -> exn + float;
  Z_of_float : float -> exn + Z;
  Z_of_string : string -> exn + Z;
  string_of_float : float -> string
}.

Section Conversions.
Context `{Builtins}.

(** [float(value)] *)
Definition py_float (v : pyval) : exn + float :=
  match v with
  | PyNone => inl TypeError
  | PyBool b => inr (if b then 1%float else 0%float)
  | PyInt n => float_of_Z n
  | PyFloat x => inr x
  | PyStr s => float_of_string s
  end.

(** [int(value)] *)
Definition py_int (v : pyval) : exn + Z :=
  match v with
  | PyNone => inl TypeError
  | PyBool b => inr (if b then 1 else 0)
  | PyInt n => inr n
  | PyFloat x => Z_of_float x
  | PyStr s => Z_of_string s
  end.

(** [str(value)] *)
Definition py_str (v : pyval) : string :=
  match v with
  | PyNone => "None"
  | PyBool b => if b then "True" else "False"
  | PyInt n => pretty n
  | PyFloat x => string_of_float x
  | PyStr s => s
  end.
End Conversions.

(** [bool(value)] *)
Definition py_bool (v : pyval) : bool :=
  match v with
  | PyNone => false
  | PyBool b => b
  | PyInt n => negb (Z.eqb n 0)
  | PyFloat x => negb (PrimFloat.eqb x 0%float)
  | PyStr s => negb (String.eqb s "")
  end.

(** ** String methods *)

(** [s.split(sep)] for a one-character separator: never an empty list. *)
Fixpoint split (sep : ascii) (s : string) : list string :=
  match s with
  | EmptyString => [EmptyString]
  | String c rest =>
      if Ascii.eqb c sep then EmptyString :: split sep rest
      else match split sep rest with
           | [] => [String c EmptyString]
           | field :: fields => String c field :: fields
           end
  end.

Definition mem_ascii (c : ascii) (chars : string) : bool :=
  existsb (Ascii.eqb c) (list_ascii_of_string chars).

Fixpoint lstrip (chars : string) (s : string) : string :=
  match s with
  | EmptyString => EmptyString
  | String c rest => if mem_ascii c chars then lstrip chars rest else s
  end.

Definition rstrip (chars : string) (s : string) : string :=
  string_of_list_ascii
    (rev (list_ascii_of_string
            (lstrip chars (string_of_list_ascii (rev (list_ascii_of_string s)))))).

(** [s.strip(chars)] *)
Definition strip (chars : string) (s : string) : string :=
  rstrip chars (lstrip chars s).

Definition lower_ascii (c : ascii) : ascii :=
  let n := nat_of_ascii c in
  if (65 <=? n)%nat && (n <=? 90)%nat then ascii_of_nat (n + 32) else c.

(** [s.lower()] on ASCII text *)
Fixpoint lower (s : string) : string :=
  match s with
  | EmptyString => EmptyString
  | String c rest => String (lower_ascii c) (lower rest)
  end.

(** [lst[i]] for a constant index [i >= 0] *)
Definition subscript {A} (lst : list A) (i : nat) : M A :=
  match lst !! i with
  | Some x => ret x
  | None => raise IndexError
  end.

(** ** The module namespace *)

(** The forward table, in source order. *)
Definition MeasurementFunctionMapping : list (string * string) :=
  [ ("dc_volts", "volt");
    ("ac_volts", "volt:ac");
    ("dc_current", "curr");
    ("ac_current", "curr:ac");
    ("two_wire_resistance", "res");
    ("four_wire_resistance", "fres");
    ("frequency", "freq");
    ("period", "per");
    ("temperature", "temp");
    ("capacitance", "cap");
    ("continuity", "cont");
    ("diode", "diod") ].

(** What a global name can be bound to.  [ObjException] is the class of
    an exception; the module binds none at top level. *)
Inductive pyobj : Type :=
| ObjModule (name : string)
| ObjClass (name : string)
| ObjDict (items : list (string * string))
| ObjException (e : exn).

(** The names bound at the top level of [agilent34410A.py]: two standard
    modules, the two sibling modules imported by [from .. import], the
    table and the class.  There is no star import. *)
Definition module_globals : list (string * pyobj) :=
  [ ("time", ObjModule "time");
    ("struct", ObjModule "struct");
    ("ivi", ObjModule "ivi");
    ("dmm", ObjModule "dmm");
    ("MeasurementFunctionMapping", ObjDict MeasurementFunctionMapping);
    ("agilent34410A", ObjClass "agilent34410A") ].

Fixpoint assoc {A} (key : string) (l : list (string * A)) : option A :=
  match l with
  | [] => None
  | (k, v) :: rest => if String.eqb k key then Some v else assoc key rest
  end.

(** Evaluation of a global name inside a method body.  A name that the
    module does not bind and that is no built-in raises [NameError]; the
    built-in names the driver uses ([float], [int], [str], [bool],
    [super], [len], [Exception]) are called directly by the embedding and
    never reach this lookup. *)
Definition load_global (name : string) : M pyobj :=
  match assoc name module_globals with
  | Some o => ret o
  | None => raise (NameError name)
  end.

(** [value in obj] *)
Definition contains (obj : pyobj) (value : pyval) : M bool :=
  match obj with
  | ObjDict items =>
      match value with
      | PyStr s => ret (match assoc s items with Some _ => true | None => false end)
      | _ => ret false
      end
  | _ => raise TypeError
  end.

(** [obj[key]] *)
Definition getitem (obj : pyobj) (key : pyval) : M string :=
  match obj with
  | ObjDict items =>
      match key with
      | PyStr s => match assoc s items with
                   | Some v => ret v
                   | None => raise KeyError
                   end
      | _ => raise KeyError
      end
  | _ => raise TypeError
  end.

(** [obj.items()] *)
Definition items_of (obj : pyobj) : M (list (string * string)) :=
  match obj with
  | ObjDict items => ret items
  | _ => raise AttributeError
  end.

(** [raise obj()] *)
Definition raise_instance {A} (obj : pyobj) : M A :=
  match obj with
  | ObjException e => raise e
  | _ => raise TypeError
  end.

(** [[k for k, v in items if v == value]] *)
Definition keys_of_value (items : list (string * string)) (value : string) : list string :=
  map fst (filter (fun kv => String.eqb (snd kv) value) items).

(** ** Primitives of the [ivi.Driver] base class *)

(** Modelled from the spec: the Transport Adapter's [write], which sends a
    command and expects no response ([ivi.Driver._write] is not part of
    the sources at hand). *)
Definition _write (cmd : string) : M unit :=
  modify (fun d => with_io (io_log d ++ [EWrite cmd]) (io_pending d) d).

(** Modelled from the spec: the Transport Adapter's [ask], which sends a
    command and reads back one line of response, failing with a transport
    error when the instrument delivers none ([ivi.Driver._ask] is not
    part of the sources at hand). *)
Definition _ask (cmd : string) : M string :=
  fun d =>
    match io_pending d with
    | response :: rest => (Return response, with_io (io_log d ++ [EAsk cmd]) rest d)
    | [] => (Raise TransportError, with_io (io_log d ++ [EAsk cmd]) [] d)
    end.

(** Modelled from the spec: reading one line of response without sending
    a command first, the second half of [ask] ([ivi.Driver._read] is not
    part of the sources at hand). *)
Definition _read : M string :=
  fun d =>
    match io_pending d with
    | response :: rest => (Return response, with_io (io_log d ++ [ERead]) rest d)
    | [] => (Raise TransportError, with_io (io_log d ++ [ERead]) [] d)
    end.

(** [time.sleep(seconds)]: a blocking wait, recorded in the log. *)
Definition sleep (seconds : Z) : M unit :=
  modify (fun d => with_io (io_log d ++ [ESleep seconds]) (io_pending d) d).

(** Modelled from the spec: the per-attribute validity flag of the Cached
    Attribute Store ([ivi.Driver._get_cache_valid] is not part of the
    sources at hand).  The flag is keyed by the attribute name; a call
    without argument inside [_get_x] or [_set_x] addresses attribute [x].
    An attribute without a recorded flag is not valid. *)
Definition _get_cache_valid (tag : string) : M bool :=
  gets (fun d => default false (_cache_valid d !! tag)).

(** Modelled from the spec: writing the validity flag of one attribute
    ([ivi.Driver._set_cache_valid] is not part of the sources at hand). *)
Definition _set_cache_valid (valid : bool) (tag : string) : M unit :=
  modify (fun d => with_cache_valid (<[tag := valid]> (_cache_valid d)) d).

(** Modelled from the spec: the bulk transition of every attribute to
    [valid = false] ([driver_operation.invalidate_all_attributes] is not
    part of the sources at hand). *)
Definition invalidate_all_attributes : M unit :=
  modify (fun d => with_cache_valid ((fun _ => false) <$> _cache_valid d) d).

(** ** The driver [agilent34410A] *)

Definition dquote : string := String "034"%char EmptyString.

(** The part of [__init__] that follows the base-class constructor, whose
    result is [d]. *)
Definition __init__ (d : driver) : driver :=
  {| _driver_operation_simulate := _driver_operation_simulate d;
     _memory_size := 5;
     _identity_instrument_manufacturer := "Agilent Technologies";
     _identity_instrument_model := "";
     _identity_instrument_firmware_revision := "";
     _measurement_function := _measurement_function d;
     _range := _range d;
     _auto_range := _auto_range d;
     _resolution := _resolution d;
     _trigger_delay := _trigger_delay d;
     _trigger_delay_auto := _trigger_delay_auto d;
     _trigger_source := _trigger_source d;
     _cache_valid := _cache_valid d;
     io_log := io_log d;
     io_pending := io_pending d |}.

Section Driver.
Context `{Builtins}.

Definition _load_id_string : M unit :=
  simulate <- gets _driver_operation_simulate ;;
  if simulate then
    modify (with_identity_instrument_manufacturer "Not available while simulating") ;;;
    modify (with_identity_instrument_model "Not available while simulating") ;;;
    modify (with_identity_instrument_firmware_revision "Not available while simulating")
  else
    response <- _ask "*IDN?" ;;
    let lst := split "," response in
    field0 <- subscript lst 0 ;;
    modify (with_identity_instrument_manufacturer field0) ;;;
    field1 <- subscript lst 1 ;;
    modify (with_identity_instrument_model field1) ;;;
    field3 <- subscript lst 3 ;;
    modify (with_identity_instrument_firmware_revision field3) ;;;
    _set_cache_valid true "identity_instrument_manufacturer" ;;;
    _set_cache_valid true "identity_instrument_model" ;;;
    _set_cache_valid true "identity_instrument_firmware_revision".

Definition _get_identity_instrument_manufacturer : M string :=
  valid <- _get_cache_valid "identity_instrument_manufacturer" ;;
  if valid then gets _identity_instrument_manufacturer
  else _load_id_string ;;; gets _identity_instrument_manufacturer.

Definition _get_identity_instrument_model : M string :=
  valid <- _get_cache_valid "identity_instrument_model" ;;
  if valid then gets _identity_instrument_model
  else _load_id_string ;;; gets _identity_instrument_model.

Definition _get_identity_instrument_firmware_revision : M string :=
  valid <- _get_cache_valid "identity_instrument_firmware_revision" ;;
  if valid then gets _identity_instrument_firmware_revision
  else _load_id_string ;;; gets _identity_instrument_firmware_revision.

Definition _utility_reset : M unit :=
  simulate <- gets _driver_operation_simulate ;;
  if negb simulate then
    _write "*RST" ;;;
    invalidate_all_attributes
  else ret tt.

Definition _utility_reset_with_defaults : M unit := _utility_reset.

Definition _utility_self_test : M (Z * string) :=
  let code := 0 in
  let message := "Self test passed" in
  simulate <- gets _driver_operation_simulate ;;
  if negb simulate then
    _write "*TST?" ;;;
    sleep 40 ;;;
    response <- _read ;;
    code <- lift (py_int (PyStr response)) ;;
    let message := if negb (Z.eqb code 0) then "Self test failed" else message in
    ret (code, message)
  else ret (code, message).

Definition _get_measurement_function : M pyval :=
  simulate <- gets _driver_operation_simulate ;;
  refresh <- (if negb simulate
              then valid <- _get_cache_valid "measurement_function" ;; ret (negb valid)
              else ret false) ;;
  (if refresh : bool then
     response <- _ask ":sense:function?" ;;
     let value := lower response in
     table <- load_global "TriggerTypeMapping" ;;
     items <- items_of table ;;
     value <- subscript (keys_of_value items value) 0 ;;
     modify (with_measurement_function (PyStr value)) ;;;
     _set_cache_valid true "measurement_function"
   else ret tt) ;;;
  gets _measurement_function.

Definition _set_measurement_function (value : pyval) : M unit :=
  table <- load_global "MeasurementFunctionMapping" ;;
  known <- contains table value ;;
  if negb known then raise ValueNotSupportedException
  else
    simulate <- gets _driver_operation_simulate ;;
    (if negb simulate then
       table <- load_global "MeasurementFunctionMapping" ;;
       token <- getitem table value ;;
       _write (":sense:function " +:+ token)
     else ret tt) ;;;
    modify (with_measurement_function value) ;;;
    _set_cache_valid true "measurement_function".

Definition _get_range : M pyval := gets _range.

Definition _set_range (value : pyval) : M unit :=
  value <- lift (py_float value) ;;
  modify (with_range (PyFloat value)).


Definition _set_auto_range (value : pyval) : M unit :=
  auto <- load_global "Auto" ;;
  known <- contains auto value ;;
  if negb known then raise ValueNotSupportedException
  else modify (with_auto_range value).

Definition _get_resolution : M pyval := gets _resolution.

Definition _set_resolution (value : pyval) : M unit :=
  value <- lift (py_float value) ;;
  modify (with_resolution (PyFloat value)).

Definition _get_trigger_delay : M pyval := gets _trigger_delay.

Definition _set_trigger_delay (value : pyval) : M unit :=
  value <- lift (py_float value) ;;
  modify (with_trigger_delay (PyFloat value)).

Definition _get_trigger_delay_auto : M pyval := gets _trigger_delay_auto.

Definition _set_trigger_delay_auto (value : pyval) : M unit :=
  let value := py_bool value in
  modify (with_trigger_delay_auto (PyBool value)).

Definition _get_trigger_source : M pyval := gets _trigger_source.

Definition _set_trigger_source (value : pyval) : M unit :=
  let value := py_str value in
  modify (with_trigger_source (PyStr value)).


Definition _measurement_fetch (max_time : pyval) : M float :=
  simulate <- gets _driver_operation_simulate ;;
  if negb simulate then
    response <- _ask ":fetch?" ;;
    lift (py_float (PyStr response))
  else ret 0%float.

Definition _measurement_initiate : M unit :=
  simulate <- gets _driver_operation_simulate ;;
  if negb simulate then _write ":initiate" else ret tt.

Definition _measurement_is_over_range (value : pyval) : bool := false.

Definition _measurement_is_under_range (value : pyval) : bool := false.

Definition _measurement_is_out_of_range (value : pyval) : bool :=
  _measurement_is_over_range value || _measurement_is_under_range value.

Definition _measurement_read (max_time : pyval) : M float :=
  simulate <- gets _driver_operation_simulate ;;
  if negb simulate then
    response <- _ask ":read?" ;;
    lift (py_float (PyStr response))
  else ret 0%float.

Definition _memory_save (index : pyval) : M unit :=
  index <- lift (py_int index) ;;
  size <- gets _memory_size ;;
  if Z.ltb index 1 || Z.gtb index size then
    class <- load_global "OutOfRangeException" ;;
    raise_instance class
  else
    simulate <- gets _driver_operation_simulate ;;
    if negb simulate then _write ("*sav " +:+ pretty index) else ret tt.

Definition _memory_recall (index : pyval) : M unit :=
  index <- lift (py_int index) ;;
  size <- gets _memory_size ;;
  if Z.ltb index 1 || Z.gtb index size then
    class <- load_global "OutOfRangeException" ;;
    raise_instance class
  else
    simulate <- gets _driver_operation_simulate ;;
    if negb simulate then _write ("*rcl " +:+ pretty index) else ret tt.

(** Without a [return], the simulation branch yields [None]. *)
Definition _get_memory_name (index : pyval) : M pyval :=
  index <- lift (py_int index) ;;
  size <- gets _memory_size ;;
  if Z.ltb index 1 || Z.gtb index size then
    class <- load_global "OutOfRangeException" ;;
    raise_instance class
  else
    simulate <- gets _driver_operation_simulate ;;
    if negb simulate then
      response <- _ask ("memory:state:name? " +:+ pretty index) ;;
      ret (PyStr (strip (" " +:+ dquote) response))
    else ret PyNone.

Definition _set_memory_name (index value : pyval) : M unit :=
  index <- lift (py_int index) ;;
  let value := py_str value in
  size <- gets _memory_size ;;
  if Z.ltb index 1 || Z.gtb index size then
    class <- load_global "OutOfRangeException" ;;
    raise_instance class
  else
    simulate <- gets _driver_operation_simulate ;;
    if negb simulate then
      _write ("memory:state:name " +:+ pretty index +:+ ", " +:+ dquote +:+ value +:+ dquote)
    else ret tt.

End Driver.

(** ** An implementation of the built-ins for running the driver *)

(** The instance below implements the interface on integers: text in
    plain decimal notation (optional sign, surrounding blanks), floats
    from and to integers with the rounding of IEEE 754 binary64.  Text
    that denotes a float with a fractional part or an exponent, and the
    printing of a float that is not an integer, are outside its domain.
    It serves to evaluate the methods on concrete inputs of that domain;
    every theorem below holds for all implementations. *)

Definition digit_of_ascii (c : ascii) : option Z :=
  let n := nat_of_ascii c in
  if (48 <=? n)%nat && (n <=? 57)%nat then Some (Z.of_nat (n - 48)) else None.

Fixpoint digits_value (acc : Z) (s : string) : option Z :=
  match s with
  | EmptyString => Some acc
  | String c rest =>
      match digit_of_ascii c with
      | Some k => digits_value (10 * acc + k) rest
      | None => None
      end
  end.

Definition blanks : string :=
  String " "%char (String "009"%char (String "010"%char (String "013"%char EmptyString))).

Definition decimal_of_string (s : string) : option Z :=
  match strip blanks s with
  | EmptyString => None
  | String c rest =>
      if Ascii.eqb c "-"%char then
        match rest with
        | EmptyString => None
        | _ => Z.opp <$> digits_value 0 rest
        end
      else if Ascii.eqb c "+"%char then
        match rest with
        | EmptyString => None
        | _ => digits_value 0 rest
        end
      else digits_value 0 (String c rest)
  end.

Definition binary64_of_Z (n : Z) : exn + float :=
  match SpecFloat.binary_normalize FloatOps.prec FloatOps.emax n 0 false with
  | SpecFloat.S754_infinity _ => inl OverflowError
  | sf => inr (FloatOps.SF2Prim sf)
  end.

Definition Z_of_binary64 (x : float) : exn + Z :=
  match FloatOps.Prim2SF x with
  | SpecFloat.S754_zero _ => inr 0
  | SpecFloat.S754_finite s m e =>
      let magnitude :=
        match e with
        | Z0 => Zpos m
        | Zpos p => Zpos m * 2 ^ Zpos p
        | Zneg p => Zpos m / 2 ^ Zpos p
        end in
      inr (if s then - magnitude else magnitude)
  | SpecFloat.S754_infinity _ => inl OverflowError
  | SpecFloat.S754_nan => inl ValueError
  end.

#[export] Instance decimal_builtins : Builtins := {|
  float_of_string s :=
    match decimal_of_string s with
    | Some n => binary64_of_Z n
    | None => inl ValueError
    end;
  float_of_Z := binary64_of_Z;
  Z_of_float := Z_of_binary64;
  Z_of_string s :=
    match decimal_of_string s with
    | Some n => inr n
    | None => inl ValueError
    end;
  string_of_float x :=
    match Z_of_binary64 x with
    | inr n => pretty n +:+ ".0"
    | inl OverflowError => if PrimFloat.ltb x 0%float then "-inf" else "inf"
    | inl _ => "nan"
    end
|}.

(** A sample driver: the fields that [__init__] sets, over placeholder
    values for those of the base class, with no flag recorded, an empty
    log and the given responses waiting on the transport. *)
Definition new_driver (simulate : bool) (responses : list string) : driver :=
  __init__
    {| _driver_operation_simulate := simulate;
       _memory_size := 0;
       _identity_instrument_manufacturer := "";
       _identity_instrument_model := "";
       _identity_instrument_firmware_revision := "";
       _measurement_function := PyStr "dc_volts";
       _range := PyInt 0;
       _auto_range := PyStr "off";
       _resolution := PyInt 1;
       _trigger_delay := PyInt 0;
       _trigger_delay_auto := PyBool false;
       _trigger_source := PyStr "";
       _cache_valid := ∅;
       io_log := [];
       io_pending := responses |}.

(** An identification string of the instrument. *)
Definition idn_response : string :=
  "Agilent Technologies,34410A,MY47000000,2.35-2.35-0.09-46-09".

(** ** Further methods of the driver *)

(** [s[:n]] *)
Fixpoint slice (n : nat) (s : string) : string :=
  match n, s with
  | O, _ => EmptyString
  | S _, EmptyString => EmptyString
  | S n', String c rest => String c (slice n' rest)
  end.

(** The value that [__init__] gives to [self._instrument_id]; no method
    assigns it afterwards. *)
Definition _instrument_id : string := "AGILENT TECHNOLOGIES,34410A".

(** How [initialize] ends: normally, with an exception of [exn], or with
    the plain [Exception] of the identity check, whose arguments are the
    expected and the received identifier. *)
Inductive init_outcome : Type :=
| Initialized
| InitRaise (e : exn)
| IdMismatch (expected got : string).

Definition init_M : Type := driver -> init_outcome * driver.

(** Sequencing of a method call inside [initialize]. *)
Definition and_then {A} (m : M A) (k : A -> init_M) : init_M :=
  fun d =>
    match m d with
    | (Return a, d') => k a d'
    | (Raise e, d') => (InitRaise e, d')
    end.

Section FurtherMethods.
Context `{Builtins}.

(** The [initialize] of the base class, called first with the same
    [id_query] and [reset], and the interface clear [_clear]: both belong
    to [ivi.Driver] and are taken as they come. *)
Variable super_initialize : bool -> bool -> M unit.
Variable _clear : M unit.

(** [self.identity.instrument_model] reads the attribute through its
    getter [_get_identity_instrument_model], and [self.utility.reset()]
    calls [_utility_reset]. *)
Definition initialize (id_query reset : bool) : init_M :=
  and_then (super_initialize id_query reset) (fun _ =>
  and_then (simulate <- gets _driver_operation_simulate ;;
            if negb simulate then _clear else ret tt) (fun _ =>
  and_then (gets _driver_operation_simulate) (fun simulate =>
  let finish : init_M :=
    if reset then and_then _utility_reset (fun _ d => (Initialized, d))
    else fun d => (Initialized, d) in
  if id_query && negb simulate then
    and_then _get_identity_instrument_model (fun id =>
      let id_check := _instrument_id in
      let id_short := slice (String.length id_check) id in
      if negb (String.eqb id_short id_check) then
        fun d => (IdMismatch id_check id_short, d)
      else finish)
  else finish))).

Definition _utility_disable : M unit := ret tt.

(** [error_code, error_message = response.split(',')] needs exactly two
    fields; the unpacking raises [ValueError] otherwise. *)
Definition _utility_error_query : M (Z * string) :=
  let error_code := 0 in
  let error_message := "No error" in
  simulate <- gets _driver_operation_simulate ;;
  if negb simulate then
    response <- _ask ":system:error?" ;;
    match split "," response with
    | [error_code; error_message] =>
        error_code <- lift (py_int (PyStr error_code)) ;;
        let error_message := strip (" " +:+ dquote) error_message in
        ret (error_code, error_message)
    | _ => raise ValueError
    end
  else ret (error_code, error_message).

Definition _utility_lock_object : M unit := ret tt.

Definition _utility_unlock_object : M unit := ret tt.

End FurtherMethods.

(** The three identity fields replaced by the text of the simulation. *)
Definition simulated_identity (d : driver) : driver :=
  with_identity_instrument_firmware_revision "Not available while simulating"
    (with_identity_instrument_model "Not available while simulating"
       (with_identity_instrument_manufacturer "Not available while simulating" d)).

(** [c] occurs in [s]. *)
Fixpoint has_char (c : ascii) (s : string) : bool :=
  match s with
  | EmptyString => false
  | String c' rest => Ascii.eqb c' c || has_char c rest
  end.

(** A method leaves the simulation switch and the number of memory slots
    as they are, whatever it returns or raises. *)
Definition keeps_configuration {A} (m : M A) : Prop :=
  forall d,
    _driver_operation_simulate (snd (m d)) = _driver_operation_simulate d /\
    _memory_size (snd (m d)) = _memory_size d.

(** A method leaves the transport alone: no call, no response taken. *)
Definition no_transport {A} (m : M A) (d : driver) : Prop :=
  io_log (snd (m d)) = io_log d /\ io_pending (snd (m d)) = io_pending d.

(** ** Observations *)

(** The token of [value] when it is one of the twelve names of the
    forward table. *)
Definition token_of (value : pyval) : option string :=
  match value with
  | PyStr s => assoc s MeasurementFunctionMapping
  | _ => None
  end.

Definition writes (d : driver) : nat := length (filter is_write (io_log d)).


(** ** Proof support *)

(** Name the fields of a driver. *)
Ltac expose d :=
  destruct d as [simulate size manufacturer model firmware function range auto_range
                 resolution delay delay_auto source flags log pending];
  cbn [_driver_operation_simulate _memory_size _identity_instrument_manufacturer
       _identity_instrument_model _identity_instrument_firmware_revision
       _measurement_function _range _auto_range _resolution _trigger_delay
       _trigger_delay_auto _trigger_source _cache_valid io_log io_pending] in *.

(** Run the monad, the primitives and the field updates; table lookups
    stay as they are. *)
Ltac step_symbolic :=
  cbv beta iota zeta delta
    [bind ret raise gets modify lift py_int py_float py_bool
     load_global raise_instance contains getitem items_of subscript
     negb orb andb fst snd
     _write _ask _read sleep _get_cache_valid _set_cache_valid
     invalidate_all_attributes
     with_identity_instrument_manufacturer with_identity_instrument_model
     with_identity_instrument_firmware_revision with_measurement_function
     with_range with_auto_range with_resolution with_trigger_delay
     with_trigger_delay_auto with_trigger_source with_cache_valid with_io
     _driver_operation_simulate _memory_size _identity_instrument_manufacturer
     _identity_instrument_model _identity_instrument_firmware_revision
     _measurement_function _range _auto_range _resolution _trigger_delay
     _trigger_delay_auto _trigger_source _cache_valid io_log io_pending].

(** The same, and resolve the global names. *)
Ltac step :=
  step_symbolic;
  cbv beta iota zeta delta [assoc module_globals String.eqb Ascii.eqb Bool.eqb].

Ltac resolve_table :=
  change (assoc "MeasurementFunctionMapping" module_globals)
    with (Some (ObjDict MeasurementFunctionMapping)).

(** One goal per entry of the forward table. *)
Ltac each_function Hin :=
  cbn [In MeasurementFunctionMapping] in Hin;
  repeat (destruct Hin as [Hin | Hin]; [injection Hin as <- <- |]);
  [.. | contradiction].

(** ** Simulation mode *)

(** C7: in simulation mode [read] and [fetch] return 0.0 and [selfTest]
    returns the success code and message; none of the three touches the
    driver, so there is no transport call and no wait. *)
Theorem simulation_read_fetch_self_test `{Builtins} (d : driver) (max_time : pyval) :
  _driver_operation_simulate d = true ->
  _measurement_read max_time d = (Return 0%float, d) /\
  _measurement_fetch max_time d = (Return 0%float, d) /\
  _utility_self_test d = (Return (0, "Self test passed"), d).
Proof.
  intros Hsim. expose d. subst simulate.
  repeat split.
Qed.

Lemma simulation_read_fetch_self_test_witness :
  let d := new_driver true ["1.5"] in
  _measurement_read (PyInt 10) d = (Return 0%float, d) /\
  _measurement_fetch (PyInt 10) d = (Return 0%float, d) /\
  _utility_self_test d = (Return (0, "Self test passed"), d).
Proof.
  apply (simulation_read_fetch_self_test (new_driver true ["1.5"]) (PyInt 10)).
  reflexivity.
Defined.

(** C10: in simulation mode, for an index between 1 and 5, [get_name]
    returns [None], and [save], [recall] and [set_name] return normally;
    the driver is left as it was. *)
Theorem simulation_memory_slots `{Builtins} (d : driver) (index : Z) (name : pyval) :
  _driver_operation_simulate d = true ->
  _memory_size d = 5 ->
  1 <= index <= 5 ->
  _get_memory_name (PyInt index) d = (Return PyNone, d) /\
  _memory_save (PyInt index) d = (Return tt, d) /\
  _memory_recall (PyInt index) d = (Return tt, d) /\
  _set_memory_name (PyInt index) name d = (Return tt, d).
Proof.
  intros Hsim Hsize Hidx. expose d. subst simulate size.
  assert (Hlow : Z.ltb index 1 = false) by (apply Z.ltb_ge; lia).
  assert (Hhigh : Z.gtb index 5 = false) by (rewrite Z.gtb_ltb; apply Z.ltb_ge; lia).
  unfold _get_memory_name, _memory_save, _memory_recall, _set_memory_name.
  step. rewrite Hlow, Hhigh. repeat split.
Qed.

Lemma simulation_memory_slots_witness :
  let d := new_driver true [] in
  _get_memory_name (PyInt 3) d = (Return PyNone, d) /\
  _memory_save (PyInt 3) d = (Return tt, d) /\
  _memory_recall (PyInt 3) d = (Return tt, d) /\
  _set_memory_name (PyInt 3) (PyStr "cal-ref") d = (Return tt, d).
Proof.
  apply (simulation_memory_slots (new_driver true []) 3 (PyStr "cal-ref"));
    [reflexivity | reflexivity | lia].
Defined.

(** ** Memory slots *)

(** For an index between 1 and 5 on the instrument, each of the four
    methods makes exactly one transport call: a write for [save],
    [recall] and [set_name], a query for [get_name], whose response is
    returned without the surrounding quotes and blanks. *)
Lemma memory_index_in_range `{Builtins} (d : driver) (index : Z) (name : pyval) :
  _driver_operation_simulate d = false ->
  _memory_size d = 5 ->
  1 <= index <= 5 ->
  _memory_save (PyInt index) d =
    (Return tt, with_io (io_log d ++ [EWrite ("*sav " +:+ pretty index)]) (io_pending d) d) /\
  _memory_recall (PyInt index) d =
    (Return tt, with_io (io_log d ++ [EWrite ("*rcl " +:+ pretty index)]) (io_pending d) d) /\
  _set_memory_name (PyInt index) name d =
    (Return tt,
     with_io (io_log d ++ [EWrite ("memory:state:name " +:+ pretty index +:+ ", "
                                     +:+ dquote +:+ py_str name +:+ dquote)])
             (io_pending d) d) /\
  forall response rest,
    io_pending d = response :: rest ->
    _get_memory_name (PyInt index) d =
      (Return (PyStr (strip (" " +:+ dquote) response)),
       with_io (io_log d ++ [EAsk ("memory:state:name? " +:+ pretty index)]) rest d).
Proof.
  intros Hsim Hsize Hidx. expose d. subst simulate size.
  assert (Hlow : Z.ltb index 1 = false) by (apply Z.ltb_ge; lia).
  assert (Hhigh : Z.gtb index 5 = false) by (rewrite Z.gtb_ltb; apply Z.ltb_ge; lia).
  unfold _get_memory_name, _memory_save, _memory_recall, _set_memory_name.
  step. rewrite Hlow, Hhigh. repeat split.
  intros response rest ->. reflexivity.
Qed.

(** C3, as the code behaves outside the range: for an index below 1 or
    above 5 each of the four methods stops before any transport call and
    leaves the driver as it was, yet the exception raised is the
    [NameError] of the unbound name [OutOfRangeException], in both
    modes, not the out-of-range error of the [ivi] module. *)
Theorem memory_index_out_of_range `{Builtins} (d : driver) (index : Z) (name : pyval) :
  _memory_size d = 5 ->
  index < 1 \/ 5 < index ->
  _memory_save (PyInt index) d = (Raise (NameError "OutOfRangeException"), d) /\
  _memory_recall (PyInt index) d = (Raise (NameError "OutOfRangeException"), d) /\
  _get_memory_name (PyInt index) d = (Raise (NameError "OutOfRangeException"), d) /\
  _set_memory_name (PyInt index) name d = (Raise (NameError "OutOfRangeException"), d).
Proof.
  intros Hsize Hidx. expose d. subst size.
  unfold _get_memory_name, _memory_save, _memory_recall, _set_memory_name.
  step.
  destruct Hidx as [Hidx | Hidx].
  - assert (Hlow : Z.ltb index 1 = true) by (apply Z.ltb_lt; lia).
    rewrite Hlow. repeat split.
  - assert (Hhigh : Z.gtb index 5 = true) by (rewrite Z.gtb_ltb; apply Z.ltb_lt; lia).
    rewrite Hhigh. destruct (Z.ltb index 1); repeat split.
Qed.

Lemma memory_index_out_of_range_witness :
  let d := new_driver false [] in
  _memory_save (PyInt 6) d = (Raise (NameError "OutOfRangeException"), d) /\
  _memory_recall (PyInt 6) d = (Raise (NameError "OutOfRangeException"), d) /\
  _get_memory_name (PyInt 6) d = (Raise (NameError "OutOfRangeException"), d) /\
  _set_memory_name (PyInt 6) (PyStr "cal-ref") d = (Raise (NameError "OutOfRangeException"), d).
Proof.
  apply (memory_index_out_of_range (new_driver false []) 6 (PyStr "cal-ref"));
    [reflexivity | right; lia].
Defined.

(** The exception of the previous theorem is not the one the [ivi]
    module provides for an index out of range. *)
Lemma save_6_not_out_of_range_exception :
  fst (_memory_save (PyInt 6) (new_driver false [])) <> Raise OutOfRangeException.
Proof. cbv. discriminate. Qed.

(** ** Self test *)

(** C9: on the instrument, [self_test] writes the self-test command,
    sleeps 40 seconds, reads one response and converts it to an integer;
    the code is returned with the failure message exactly when it is not
    zero and with the success message exactly when it is zero. *)
Theorem self_test_on_instrument `{Builtins}
    (d : driver) (response : string) (rest : list string) (code : Z) :
  _driver_operation_simulate d = false ->
  io_pending d = response :: rest ->
  Z_of_string response = inr code ->
  exists message,
    _utility_self_test d =
      (Return (code, message),
       with_io (io_log d ++ [EWrite "*TST?"; ESleep 40; ERead]) rest d) /\
    (message = "Self test failed" <-> code <> 0) /\
    (message = "Self test passed" <-> code = 0).
Proof.
  intros Hsim Hpending Hcode. expose d. subst simulate pending.
  unfold _utility_self_test. step. rewrite Hcode.
  rewrite <- !app_assoc. cbn [app].
  destruct (Z.eqb_spec code 0) as [-> | Hne].
  - eexists. split; [reflexivity|]. split; split; intros; try reflexivity; try discriminate.
    contradiction.
  - eexists. split; [reflexivity|]. split; split; intros; try reflexivity; try discriminate;
      try assumption. contradiction.
Qed.

Lemma self_test_on_instrument_witness :
  let d := new_driver false ["+1"] in
  exists message,
    _utility_self_test d =
      (Return (1, message),
       with_io (io_log d ++ [EWrite "*TST?"; ESleep 40; ERead]) [] d) /\
    (message = "Self test failed" <-> 1 <> 0) /\
    (message = "Self test passed" <-> 1 = 0).
Proof.
  apply (self_test_on_instrument (new_driver false ["+1"]) "+1" [] 1);
    reflexivity.
Defined.

(** ** Measurement function *)

(** The tokens are pairwise distinct and in lower case, so the selection
    by value that the getter performs would give back the name when run
    on the forward table. *)
Lemma forward_table_round_trip (f token : string) :
  In (f, token) MeasurementFunctionMapping ->
  assoc f MeasurementFunctionMapping = Some token /\
  keys_of_value MeasurementFunctionMapping (lower token) = [f].
Proof.
  intros Hin. each_function Hin; split; reflexivity.
Qed.

(** A value outside the table is rejected before any transport call, the
    driver being left as it was. *)
Lemma set_measurement_function_unknown `{Builtins} (d : driver) (value : pyval) :
  token_of value = None ->
  _set_measurement_function value d = (Raise ValueNotSupportedException, d).
Proof.
  intros Hunknown. unfold _set_measurement_function.
  step_symbolic. resolve_table. step_symbolic.
  destruct value as [| b | n | x | s]; try reflexivity.
  cbn [token_of] in Hunknown. rewrite Hunknown. reflexivity.
Qed.

(** A name of the table is accepted: on the instrument its token is
    written once; in both modes the value is stored and marked valid. *)
Lemma set_measurement_function_known `{Builtins} (d : driver) (f token : string) :
  assoc f MeasurementFunctionMapping = Some token ->
  _set_measurement_function (PyStr f) d =
    (Return tt,
     with_cache_valid (<["measurement_function" := true]> (_cache_valid d))
       (with_measurement_function (PyStr f)
          (if _driver_operation_simulate d then d
           else with_io (io_log d ++ [EWrite (":sense:function " +:+ token)])
                        (io_pending d) d))).
Proof.
  intros Hassoc. unfold _set_measurement_function.
  step_symbolic. resolve_table. step_symbolic. rewrite Hassoc.
  expose d. destruct simulate.
  - reflexivity.
  - step_symbolic. reflexivity.
Qed.

(** With a valid flag, or in simulation mode, the getter returns the
    stored value and leaves the driver as it was. *)
Lemma get_measurement_function_cached `{Builtins} (d : driver) :
  _driver_operation_simulate d = true \/ _cache_valid d !! "measurement_function" = Some true ->
  _get_measurement_function d = (Return (_measurement_function d), d).
Proof.
  intros Hcase. unfold _get_measurement_function. step_symbolic.
  expose d. destruct simulate; [reflexivity|].
  destruct Hcase as [Hsim | Hvalid]; [discriminate|].
  rewrite Hvalid. reflexivity.
Qed.

(** On the instrument, with the flag not valid, the getter sends its
    query, consumes the response and then stops on the unbound name
    [TriggerTypeMapping], whatever the response; value and flag are as
    before. *)
Lemma get_measurement_function_refresh `{Builtins}
    (d : driver) (response : string) (rest : list string) :
  _driver_operation_simulate d = false ->
  default false (_cache_valid d !! "measurement_function") = false ->
  io_pending d = response :: rest ->
  _get_measurement_function d =
    (Raise (NameError "TriggerTypeMapping"),
     with_io (io_log d ++ [EAsk ":sense:function?"]) rest d).
Proof.
  intros Hsim Hflag Hpending. unfold _get_measurement_function. step_symbolic.
  expose d. subst simulate pending. rewrite Hflag. reflexivity.
Qed.

(** C6, as the code behaves for [auto_range]: the setter stops on the
    unbound name [Auto] for every value, inside or outside the set of
    modes, with a [NameError]; it makes no transport call and changes
    neither the stored value nor any flag. *)
Theorem set_auto_range_name_error `{Builtins} (d : driver) (value : pyval) :
  _set_auto_range value d = (Raise (NameError "Auto"), d).
Proof. reflexivity. Qed.

(** C1, as the code behaves: on the instrument, after a set of
    [measurement_function] to a name of the table and an invalidation of
    the cache, a get answered with the very token that was written does
    not return the name: it raises [NameError] for [TriggerTypeMapping],
    after one write and one query. *)
Theorem measurement_function_read_back `{Builtins}
    (d : driver) (f token : string) (rest : list string) :
  _driver_operation_simulate d = false ->
  In (f, token) MeasurementFunctionMapping ->
  io_pending d = token :: rest ->
  let run := (_set_measurement_function (PyStr f) ;;;
              invalidate_all_attributes ;;;
              _get_measurement_function) d in
  fst run = Raise (NameError "TriggerTypeMapping") /\
  io_log (snd run) = (io_log d ++ [EWrite (":sense:function " +:+ token);
                                    EAsk ":sense:function?"])%list /\
  io_pending (snd run) = rest.
Proof.
  intros Hsim Hin Hpending.
  destruct (forward_table_round_trip f token Hin) as [Hassoc _].
  cbv zeta. unfold bind.
  rewrite (set_measurement_function_known d f token Hassoc), Hsim.
  cbv beta iota delta [invalidate_all_attributes modify].
  rewrite (get_measurement_function_refresh _ token rest).
  - expose d. cbn. rewrite <- app_assoc. repeat split.
  - expose d. assumption.
  - expose d. cbn. rewrite lookup_fmap, lookup_insert_eq. reflexivity.
  - expose d. assumption.
Qed.

Lemma measurement_function_read_back_witness :
  let run := (_set_measurement_function (PyStr "dc_volts") ;;;
              invalidate_all_attributes ;;;
              _get_measurement_function) (new_driver false ["volt"]) in
  fst run = Raise (NameError "TriggerTypeMapping") /\
  io_log (snd run) = [EWrite ":sense:function volt"; EAsk ":sense:function?"] /\
  io_pending (snd run) = [].
Proof.
  apply (measurement_function_read_back (new_driver false ["volt"]) "dc_volts" "volt" []);
    [reflexivity | left; reflexivity | reflexivity].
Defined.

(** ** Identity *)


(** C8, as the code behaves: on the instrument, [_load_id_string] makes
    one identification query and splits the response at the commas.
    With four fields or more it stores fields 0, 1 and 3 as manufacturer,
    model and firmware revision and marks the three attributes valid;
    with fewer than four it raises Python's [IndexError] and marks
    nothing. *)
Theorem load_id_string_on_instrument `{Builtins}
    (d : driver) (response : string) (rest : list string) :
  _driver_operation_simulate d = false ->
  io_pending d = response :: rest ->
  let fields := split "," response in
  let result := fst (_load_id_string d) in
  let d' := snd (_load_id_string d) in
  io_log d' = (io_log d ++ [EAsk "*IDN?"])%list /\
  io_pending d' = rest /\
  if (4 <=? length fields)%nat then
    result = Return tt /\
    fields !! 0%nat = Some (_identity_instrument_manufacturer d') /\
    fields !! 1%nat = Some (_identity_instrument_model d') /\
    fields !! 3%nat = Some (_identity_instrument_firmware_revision d') /\
    _cache_valid d' !! "identity_instrument_manufacturer" = Some true /\
    _cache_valid d' !! "identity_instrument_model" = Some true /\
    _cache_valid d' !! "identity_instrument_firmware_revision" = Some true
  else
    result = Raise IndexError /\ _cache_valid d' = _cache_valid d.
Proof.
  intros Hsim Hpending. expose d. subst simulate pending.
  unfold _load_id_string. step_symbolic.
  destruct (split "," response) as [|f0 [|f1 [|f2 [|f3 more]]]];
    cbn [length Nat.leb lookup list_lookup fst snd io_log io_pending _cache_valid
         _identity_instrument_manufacturer _identity_instrument_model
         _identity_instrument_firmware_revision];
    (split; [reflexivity|]); (split; [reflexivity|]); try (split; reflexivity).
  repeat split; try reflexivity.
  - rewrite lookup_insert_ne by discriminate.
    rewrite lookup_insert_ne by discriminate.
    apply lookup_insert_eq.
  - rewrite lookup_insert_ne by discriminate. apply lookup_insert_eq.
  - apply lookup_insert_eq.
Qed.

Lemma load_id_string_on_instrument_witness :
  let d := new_driver false [idn_response] in
  let fields := split "," idn_response in
  let result := fst (_load_id_string d) in
  let d' := snd (_load_id_string d) in
  io_log d' = (io_log d ++ [EAsk "*IDN?"])%list /\
  io_pending d' = [] /\
  result = Return tt /\
  fields !! 0%nat = Some (_identity_instrument_manufacturer d') /\
  fields !! 1%nat = Some (_identity_instrument_model d') /\
  fields !! 3%nat = Some (_identity_instrument_firmware_revision d') /\
  _cache_valid d' !! "identity_instrument_manufacturer" = Some true /\
  _cache_valid d' !! "identity_instrument_model" = Some true /\
  _cache_valid d' !! "identity_instrument_firmware_revision" = Some true.
Proof.
  apply (load_id_string_on_instrument (new_driver false [idn_response]) idn_response []);
    reflexivity.
Defined.

Example load_id_string_agilent :
  let d' := snd (_load_id_string (new_driver false [idn_response])) in
  _identity_instrument_manufacturer d' = "Agilent Technologies" /\
  _identity_instrument_model d' = "34410A" /\
  _identity_instrument_firmware_revision d' = "2.35-2.35-0.09-46-09".
Proof. repeat split. Qed.

(** The claim of C8 about short responses fails on a response of three
    fields: the exception is [IndexError], not the response error. *)
Lemma load_id_string_three_fields :
  let d := new_driver false ["Agilent Technologies,34410A,MY47000000"] in
  (length (split "," "Agilent Technologies,34410A,MY47000000") < 4)%nat /\
  _driver_operation_simulate d = false /\
  fst (_load_id_string d) = Raise IndexError /\
  fst (_load_id_string d) <> Raise DeviceResponseError.
Proof.
  cbv zeta. split; [vm_compute; lia|]. split; [reflexivity|].
  split; [reflexivity|]. vm_compute. discriminate.
Qed.

(** ** Setters and the cache *)

(** C2, as the code behaves.  [measurement_function]: a value of the
    table is stored as it is and marked valid, and the next get returns
    it and leaves the driver as it was; any other value is rejected.
    [range], [resolution], [trigger_delay]: the setter stores
    [float(value)], or raises what the conversion raises.
    [trigger_delay_auto] stores [bool(value)] and [trigger_source] stores
    [str(value)].  These five setters leave every validity flag as it
    was, and the next get returns the stored, converted value and leaves
    the driver as it was, so there is no transport call. *)
Theorem set_then_get `{Builtins} (d : driver) (value : pyval) :
  match token_of value with
  | Some _ =>
      let d1 := snd (_set_measurement_function value d) in
      fst (_set_measurement_function value d) = Return tt /\
      _cache_valid d1 !! "measurement_function" = Some true /\
      _measurement_function d1 = value /\
      _get_measurement_function d1 = (Return value, d1)
  | None =>
      _set_measurement_function value d = (Raise ValueNotSupportedException, d)
  end /\
  match py_float value with
  | inr x =>
      (let d1 := snd (_set_range value d) in
       fst (_set_range value d) = Return tt /\
       _cache_valid d1 = _cache_valid d /\
       _get_range d1 = (Return (PyFloat x), d1)) /\
      (let d1 := snd (_set_resolution value d) in
       fst (_set_resolution value d) = Return tt /\
       _cache_valid d1 = _cache_valid d /\
       _get_resolution d1 = (Return (PyFloat x), d1)) /\
      (let d1 := snd (_set_trigger_delay value d) in
       fst (_set_trigger_delay value d) = Return tt /\
       _cache_valid d1 = _cache_valid d /\
       _get_trigger_delay d1 = (Return (PyFloat x), d1))
  | inl e =>
      _set_range value d = (Raise e, d) /\
      _set_resolution value d = (Raise e, d) /\
      _set_trigger_delay value d = (Raise e, d)
  end /\
  (let d1 := snd (_set_trigger_delay_auto value d) in
   fst (_set_trigger_delay_auto value d) = Return tt /\
   _cache_valid d1 = _cache_valid d /\
   _get_trigger_delay_auto d1 = (Return (PyBool (py_bool value)), d1)) /\
  (let d1 := snd (_set_trigger_source value d) in
   fst (_set_trigger_source value d) = Return tt /\
   _cache_valid d1 = _cache_valid d /\
   _get_trigger_source d1 = (Return (PyStr (py_str value)), d1)).
Proof.
  split; [| split; [| split]].
  - destruct (token_of value) as [token|] eqn:Htoken.
    + destruct value as [| b | n | x | f]; try discriminate.
      cbn [token_of] in Htoken.
      rewrite (set_measurement_function_known d f token Htoken).
      cbv zeta. cbn [fst snd].
      split; [reflexivity|].
      split; [expose d; apply lookup_insert_eq|].
      split; [expose d; reflexivity|].
      rewrite get_measurement_function_cached.
      * expose d. reflexivity.
      * right. expose d. apply lookup_insert_eq.
    + apply set_measurement_function_unknown. assumption.
  - unfold _set_range, _set_resolution, _set_trigger_delay,
      _get_range, _get_resolution, _get_trigger_delay.
    cbv [bind lift].
    destruct (py_float value) as [e | x]; repeat split.
  - repeat split.
  - repeat split.
Qed.

(** The claim of C2 fails for [range] and for [trigger_delay_auto]: after
    a reset has cleared the flags, an accepted set of [range] leaves the
    flag of [range] not valid; and an accepted set of
    [trigger_delay_auto] to 5 stores [True], which is what the next get
    returns. *)
Lemma set_range_keeps_flag_set_auto_converts :
  let d := snd (_utility_reset (new_driver false [])) in
  (fst (_set_range (PyFloat 1) d) = Return tt /\
   fst (_get_cache_valid "range" (snd (_set_range (PyFloat 1) d))) = Return false) /\
  (fst (_set_trigger_delay_auto (PyInt 5) d) = Return tt /\
   fst (_get_trigger_delay_auto (snd (_set_trigger_delay_auto (PyInt 5) d)))
     = Return (PyBool true) /\
   PyBool true <> PyInt 5).
Proof.
  cbv zeta. repeat split; try reflexivity. discriminate.
Qed.

(** C5, as the code behaves on the instrument.  [measurement_function]:
    an accepted set writes the one command that carries the token, a
    rejected set writes nothing.  The setters of [range], [auto_range],
    [resolution], [trigger_delay], [trigger_delay_auto] and
    [trigger_source] never reach the transport, whether they succeed or
    not. *)
Theorem set_transport_writes `{Builtins} (d : driver) (value : pyval) :
  _driver_operation_simulate d = false ->
  match token_of value with
  | Some token =>
      fst (_set_measurement_function value d) = Return tt /\
      io_log (snd (_set_measurement_function value d))
        = (io_log d ++ [EWrite (":sense:function " +:+ token)])%list
  | None =>
      fst (_set_measurement_function value d) = Raise ValueNotSupportedException /\
      io_log (snd (_set_measurement_function value d)) = io_log d
  end /\
  io_log (snd (_set_range value d)) = io_log d /\
  io_log (snd (_set_auto_range value d)) = io_log d /\
  io_log (snd (_set_resolution value d)) = io_log d /\
  io_log (snd (_set_trigger_delay value d)) = io_log d /\
  io_log (snd (_set_trigger_delay_auto value d)) = io_log d /\
  io_log (snd (_set_trigger_source value d)) = io_log d.
Proof.
  intros Hsim. split.
  - destruct (token_of value) as [token|] eqn:Htoken.
    + destruct value as [| b | n | x | f]; try discriminate.
      cbn [token_of] in Htoken.
      rewrite (set_measurement_function_known d f token Htoken), Hsim.
      expose d. split; reflexivity.
    + rewrite (set_measurement_function_unknown d value Htoken). split; reflexivity.
  - unfold _set_range, _set_resolution, _set_trigger_delay.
    cbv [bind lift].
    destruct (py_float value) as [e | x]; repeat split.
Qed.

Lemma set_transport_writes_witness :
  let d := new_driver false [] in
  (fst (_set_measurement_function (PyStr "ac_volts") d) = Return tt /\
   io_log (snd (_set_measurement_function (PyStr "ac_volts") d))
     = (io_log d ++ [EWrite (":sense:function " +:+ "volt:ac")])%list) /\
  io_log (snd (_set_range (PyStr "ac_volts") d)) = io_log d /\
  io_log (snd (_set_auto_range (PyStr "ac_volts") d)) = io_log d /\
  io_log (snd (_set_resolution (PyStr "ac_volts") d)) = io_log d /\
  io_log (snd (_set_trigger_delay (PyStr "ac_volts") d)) = io_log d /\
  io_log (snd (_set_trigger_delay_auto (PyStr "ac_volts") d)) = io_log d /\
  io_log (snd (_set_trigger_source (PyStr "ac_volts") d)) = io_log d.
Proof.
  apply (set_transport_writes (new_driver false []) (PyStr "ac_volts")).
  reflexivity.
Defined.

(** The claim of C5 fails for [range]: on the instrument an accepted set
    of [range] makes no write. *)
Lemma set_range_writes_nothing :
  let d := new_driver false [] in
  _driver_operation_simulate d = false /\
  fst (_set_range (PyFloat 1) d) = Return tt /\
  writes (snd (_set_range (PyFloat 1) d)) = writes d /\
  writes (snd (_set_range (PyFloat 1) d)) <> S (writes d).
Proof.
  cbv zeta. repeat split; try reflexivity. vm_compute. discriminate.
Qed.

(** ** Reset *)





(** * Further properties of the driver *)

(** ** Strings *)

Lemma lstrip_length (chars s : string) :
  (String.length (lstrip chars s) <= String.length s)%nat.
Proof.
  induction s as [|c rest IH]; cbn [lstrip String.length]; [lia|].
  destruct (mem_ascii c chars); cbn [String.length]; lia.
Qed.

Lemma lstrip_fixed (chars : string) (c : ascii) (rest : string) :
  lstrip chars (String c rest) = String c rest -> mem_ascii c chars = false.
Proof.
  cbn [lstrip]. destruct (mem_ascii c chars); [|reflexivity].
  intros Heq. pose proof (lstrip_length chars rest) as Hlen.
  rewrite Heq in Hlen. cbn [String.length] in Hlen. lia.
Qed.

Lemma list_ascii_of_append (s t : string) :
  list_ascii_of_string (s +:+ t)
    = (list_ascii_of_string s ++ list_ascii_of_string t)%list.
Proof.
  induction s as [|c rest IH]; [reflexivity|].
  change (String c rest +:+ t) with (String c (rest +:+ t)).
  cbn [list_ascii_of_string app]. f_equal. exact IH.
Qed.

Lemma rstrip_snoc (chars s : string) (q : ascii) :
  mem_ascii q chars = true ->
  rstrip chars (s +:+ String q EmptyString) = rstrip chars s.
Proof.
  intros Hq. unfold rstrip.
  rewrite list_ascii_of_append. cbn [list_ascii_of_string].
  rewrite rev_app_distr. cbn [rev app string_of_list_ascii lstrip].
  rewrite Hq. reflexivity.
Qed.

(** A text that has no blank or quote at either end comes back from
    between two quotes. *)
Lemma strip_quoted (name : string) :
  lstrip (" " +:+ dquote) name = name ->
  rstrip (" " +:+ dquote) name = name ->
  strip (" " +:+ dquote) (dquote +:+ name +:+ dquote) = name.
Proof.
  intros Hleft Hright. unfold strip.
  destruct name as [|c rest].
  - reflexivity.
  - pose proof (lstrip_fixed _ _ _ Hleft) as Hc.
    change (dquote +:+ String c rest +:+ dquote)
      with (String "034"%char (String c (rest +:+ dquote))).
    cbn [lstrip].
    change (mem_ascii "034"%char (" " +:+ dquote)) with true. cbv iota.
    rewrite Hc.
    change (String c (rest +:+ dquote)) with (String c rest +:+ String "034"%char EmptyString).
    rewrite rstrip_snoc by reflexivity. exact Hright.
Qed.

(** No field of a split contains the separator. *)
Lemma split_fields_no_separator (sep : ascii) (s : string) :
  Forall (fun field => has_char sep field = false) (split sep s).
Proof.
  induction s as [|c rest IH]; cbn [split].
  - constructor; [reflexivity | constructor].
  - destruct (Ascii.eqb_spec c sep) as [-> | Hne].
    + constructor; [reflexivity | exact IH].
    + destruct (split sep rest) as [|field fields].
      * constructor; [|constructor]. cbn [has_char].
        apply orb_false_iff. split; [apply Ascii.eqb_neq; exact Hne | reflexivity].
      * inversion IH as [|? ? Hfield Hfields]; subst.
        constructor; [|exact Hfields]. cbn [has_char].
        apply orb_false_iff. split; [apply Ascii.eqb_neq; exact Hne | exact Hfield].
Qed.

Lemma slice_has_char (c : ascii) (n : nat) (s : string) :
  has_char c (slice n s) = true -> has_char c s = true.
Proof.
  revert s. induction n as [|n IH]; intros s; [discriminate|].
  destruct s as [|c' rest]; cbn [slice has_char]; [discriminate|].
  intros Hor. apply orb_true_iff in Hor. apply orb_true_iff.
  destruct Hor as [Hhead | Htail]; [left; exact Hhead | right; apply IH; exact Htail].
Qed.

(** A field of a response split at the commas never begins with the
    identifier that [initialize] expects, which contains a comma. *)
Lemma field_is_not_instrument_id (field : string) :
  has_char "," field = false ->
  String.eqb (slice (String.length _instrument_id) field) _instrument_id = false.
Proof.
  intros Hfield. apply String.eqb_neq. intros Heq.
  assert (Hcomma : has_char "," field = true).
  { apply (slice_has_char _ (String.length _instrument_id)). rewrite Heq. reflexivity. }
  congruence.
Qed.

Lemma split_nonempty (sep : ascii) (s : string) : split sep s <> [].
Proof.
  destruct s as [|c rest]; cbn [split]; [discriminate|].
  destruct (Ascii.eqb c sep); [discriminate|].
  destruct (split sep rest); discriminate.
Qed.

(** ** Memory slots, continued *)

(** X1: on the instrument, the index is whatever [int(index)] gives: when
    that is between 1 and 5, [save], [recall] and [set_name] write
    exactly one command that carries it, the name going between quotes
    as it is, and [get_name] sends one query and returns the response
    without surrounding quotes and blanks, or fails with the transport
    error when no response comes. *)
Theorem memory_slot_commands `{Builtins}
    (d : driver) (index name : pyval) (n : Z) :
  _driver_operation_simulate d = false ->
  _memory_size d = 5 ->
  py_int index = inr n ->
  1 <= n <= 5 ->
  _memory_save index d =
    (Return tt, with_io (io_log d ++ [EWrite ("*sav " +:+ pretty n)]) (io_pending d) d) /\
  _memory_recall index d =
    (Return tt, with_io (io_log d ++ [EWrite ("*rcl " +:+ pretty n)]) (io_pending d) d) /\
  _set_memory_name index name d =
    (Return tt,
     with_io (io_log d ++ [EWrite ("memory:state:name " +:+ pretty n +:+ ", "
                                     +:+ dquote +:+ py_str name +:+ dquote)])
             (io_pending d) d) /\
  _get_memory_name index d =
    match io_pending d with
    | response :: rest =>
        (Return (PyStr (strip (" " +:+ dquote) response)),
         with_io (io_log d ++ [EAsk ("memory:state:name? " +:+ pretty n)]) rest d)
    | [] =>
        (Raise TransportError,
         with_io (io_log d ++ [EAsk ("memory:state:name? " +:+ pretty n)]) [] d)
    end.
Proof.
  intros Hsim Hsize Hint Hrange. expose d. subst simulate size.
  assert (Hlow : Z.ltb n 1 = false) by (apply Z.ltb_ge; lia).
  assert (Hhigh : Z.gtb n 5 = false) by (rewrite Z.gtb_ltb; apply Z.ltb_ge; lia).
  unfold _get_memory_name, _memory_save, _memory_recall, _set_memory_name.
  cbv [bind lift]. rewrite Hint. step. rewrite Hlow, Hhigh.
  repeat split. destruct pending; reflexivity.
Qed.

Lemma memory_slot_commands_witness :
  let d := new_driver false [dquote +:+ "cal-ref" +:+ dquote] in
  _memory_save (PyStr " 3 ") d =
    (Return tt, with_io (io_log d ++ [EWrite ("*sav " +:+ pretty 3)]) (io_pending d) d) /\
  _memory_recall (PyStr " 3 ") d =
    (Return tt, with_io (io_log d ++ [EWrite ("*rcl " +:+ pretty 3)]) (io_pending d) d) /\
  _set_memory_name (PyStr " 3 ") (PyStr "cal-ref") d =
    (Return tt,
     with_io (io_log d ++ [EWrite ("memory:state:name " +:+ pretty 3 +:+ ", "
                                     +:+ dquote +:+ "cal-ref" +:+ dquote)])
             (io_pending d) d) /\
  _get_memory_name (PyStr " 3 ") d =
    (Return (PyStr (strip (" " +:+ dquote) (dquote +:+ "cal-ref" +:+ dquote))),
     with_io (io_log d ++ [EAsk ("memory:state:name? " +:+ pretty 3)]) [] d).
Proof.
  apply (memory_slot_commands (new_driver false [dquote +:+ "cal-ref" +:+ dquote])
           (PyStr " 3 ") (PyStr "cal-ref") 3);
    [reflexivity | reflexivity | reflexivity | lia].
Defined.

(** X2: an index that [int] does not convert makes each of the four
    memory methods raise the exception of the conversion, in both modes,
    before the range check and before any transport call. *)
Theorem memory_index_not_an_integer `{Builtins}
    (d : driver) (index name : pyval) (e : exn) :
  py_int index = inl e ->
  _memory_save index d = (Raise e, d) /\
  _memory_recall index d = (Raise e, d) /\
  _get_memory_name index d = (Raise e, d) /\
  _set_memory_name index name d = (Raise e, d).
Proof.
  intros Hint.
  unfold _get_memory_name, _memory_save, _memory_recall, _set_memory_name.
  cbv [bind lift]. rewrite Hint. repeat split.
Qed.

Lemma memory_index_not_an_integer_witness :
  let d := new_driver false [] in
  _memory_save PyNone d = (Raise TypeError, d) /\
  _memory_recall PyNone d = (Raise TypeError, d) /\
  _get_memory_name PyNone d = (Raise TypeError, d) /\
  _set_memory_name PyNone (PyStr "cal-ref") d = (Raise TypeError, d).
Proof.
  apply (memory_index_not_an_integer (new_driver false []) PyNone (PyStr "cal-ref") TypeError).
  reflexivity.
Defined.

(** X3: a name without blank or quote at either end survives the round
    trip through the instrument: after [set_name] has written it between
    quotes, a [get_name] that is answered with that quoted text returns
    the name. *)
Theorem memory_name_round_trip `{Builtins}
    (d : driver) (index : Z) (name : string) (rest : list string) :
  _driver_operation_simulate d = false ->
  _memory_size d = 5 ->
  1 <= index <= 5 ->
  lstrip (" " +:+ dquote) name = name ->
  rstrip (" " +:+ dquote) name = name ->
  io_pending d = (dquote +:+ name +:+ dquote) :: rest ->
  let written := snd (_set_memory_name (PyInt index) (PyStr name) d) in
  io_log written
    = (io_log d ++ [EWrite ("memory:state:name " +:+ pretty index +:+ ", "
                              +:+ dquote +:+ name +:+ dquote)])%list /\
  fst (_get_memory_name (PyInt index) written) = Return (PyStr name).
Proof.
  intros Hsim Hsize Hrange Hleft Hright Hpending.
  destruct (memory_index_in_range d index (PyStr name) Hsim Hsize Hrange)
    as (_ & _ & Hset & _).
  cbv zeta. rewrite Hset. cbn [snd]. split; [expose d; reflexivity|].
  assert (Hsim' : _driver_operation_simulate
                    (with_io (io_log d ++ [EWrite ("memory:state:name " +:+ pretty index +:+ ", "
                                +:+ dquote +:+ py_str (PyStr name) +:+ dquote)])
                       (io_pending d) d) = false) by (expose d; exact Hsim).
  assert (Hsize' : _memory_size
                    (with_io (io_log d ++ [EWrite ("memory:state:name " +:+ pretty index +:+ ", "
                                +:+ dquote +:+ py_str (PyStr name) +:+ dquote)])
                       (io_pending d) d) = 5) by (expose d; exact Hsize).
  destruct (memory_index_in_range _ index PyNone Hsim' Hsize' Hrange)
    as (_ & _ & _ & Hget).
  rewrite (Hget (dquote +:+ name +:+ dquote) rest) by (expose d; exact Hpending).
  cbn [fst]. rewrite (strip_quoted name Hleft Hright). reflexivity.
Qed.

Lemma memory_name_round_trip_witness :
  let d := new_driver false [dquote +:+ "cal ref 1" +:+ dquote] in
  let written := snd (_set_memory_name (PyInt 3) (PyStr "cal ref 1") d) in
  io_log written
    = (io_log d ++ [EWrite ("memory:state:name " +:+ pretty 3 +:+ ", "
                              +:+ dquote +:+ "cal ref 1" +:+ dquote)])%list /\
  fst (_get_memory_name (PyInt 3) written) = Return (PyStr "cal ref 1").
Proof.
  apply (memory_name_round_trip (new_driver false [dquote +:+ "cal ref 1" +:+ dquote])
           3 "cal ref 1" []);
    [reflexivity | reflexivity | lia | reflexivity | reflexivity | reflexivity].
Defined.

(** ** Error query *)

(** X4: on the instrument, [error_query] sends one query; a response of
    exactly two fields whose first converts to an integer gives that
    integer and the second field without surrounding quotes and
    blanks. *)
Theorem error_query_on_instrument `{Builtins}
    (d : driver) (response code_text message_text : string)
    (rest : list string) (code : Z) :
  _driver_operation_simulate d = false ->
  io_pending d = response :: rest ->
  split "," response = [code_text; message_text] ->
  Z_of_string code_text = inr code ->
  _utility_error_query d =
    (Return (code, strip (" " +:+ dquote) message_text),
     with_io (io_log d ++ [EAsk ":system:error?"]) rest d).
Proof.
  intros Hsim Hpending Hsplit Hcode. expose d. subst simulate pending.
  unfold _utility_error_query. step_symbolic. rewrite Hsplit.
  step_symbolic. rewrite Hcode. reflexivity.
Qed.

Lemma error_query_on_instrument_witness :
  let response := "-113," +:+ dquote +:+ "Undefined header" +:+ dquote in
  let d := new_driver false [response] in
  _utility_error_query d =
    (Return (-113, strip (" " +:+ dquote) (dquote +:+ "Undefined header" +:+ dquote)),
     with_io (io_log d ++ [EAsk ":system:error?"]) [] d).
Proof.
  apply (error_query_on_instrument
           (new_driver false ["-113," +:+ dquote +:+ "Undefined header" +:+ dquote])
           ("-113," +:+ dquote +:+ "Undefined header" +:+ dquote)
           "-113" (dquote +:+ "Undefined header" +:+ dquote) [] (-113));
    reflexivity.
Defined.

(** X5: on the instrument, a response to [error_query] that has no comma
    or more than one, as when the message itself contains a comma, raises
    [ValueError]; the query has been sent and the response taken. *)
Theorem error_query_field_count `{Builtins}
    (d : driver) (response : string) (rest : list string) :
  _driver_operation_simulate d = false ->
  io_pending d = response :: rest ->
  length (split "," response) <> 2%nat ->
  _utility_error_query d =
    (Raise ValueError, with_io (io_log d ++ [EAsk ":system:error?"]) rest d).
Proof.
  intros Hsim Hpending Hcount. expose d. subst simulate pending.
  unfold _utility_error_query. step_symbolic.
  destruct (split "," response) as [|f0 [|f1 [|f2 more]]]; try reflexivity.
  cbn [length] in Hcount. contradiction.
Qed.

Lemma error_query_field_count_witness :
  let response := "-410," +:+ dquote +:+ "Query INTERRUPTED, again" +:+ dquote in
  let d := new_driver false [response] in
  _utility_error_query d =
    (Raise ValueError, with_io (io_log d ++ [EAsk ":system:error?"]) [] d).
Proof.
  apply (error_query_field_count
           (new_driver false ["-410," +:+ dquote +:+ "Query INTERRUPTED, again" +:+ dquote])
           ("-410," +:+ dquote +:+ "Query INTERRUPTED, again" +:+ dquote) []);
    [reflexivity | reflexivity | vm_compute; discriminate].
Defined.

(** ** Reset in simulation mode *)

(** X6: in simulation mode [reset] and [reset_with_defaults] do nothing
    at all: no write and no invalidation.  A value of
    [measurement_function] set before the reset is still what the getter
    returns after it, and the transport has not been used. *)
Theorem simulation_reset_keeps_cache `{Builtins} (d : driver) (f token : string) :
  _driver_operation_simulate d = true ->
  assoc f MeasurementFunctionMapping = Some token ->
  _utility_reset d = (Return tt, d) /\
  _utility_reset_with_defaults d = (Return tt, d) /\
  let run := (_set_measurement_function (PyStr f) ;;;
              _utility_reset ;;;
              _get_measurement_function) d in
  fst run = Return (PyStr f) /\
  _cache_valid (snd run) !! "measurement_function" = Some true /\
  no_transport (_set_measurement_function (PyStr f) ;;;
                _utility_reset ;;;
                _get_measurement_function) d.
Proof.
  intros Hsim Hassoc.
  assert (Hreset : forall d0, _driver_operation_simulate d0 = true ->
                              _utility_reset d0 = (Return tt, d0)).
  { intros d0 Hd0. expose d0. subst simulate. reflexivity. }
  split; [apply Hreset; exact Hsim|].
  split; [apply Hreset; exact Hsim|].
  cbv zeta. unfold no_transport, bind.
  rewrite (set_measurement_function_known d f token Hassoc), Hsim.
  rewrite Hreset by (expose d; exact Hsim).
  rewrite get_measurement_function_cached by (left; expose d; exact Hsim).
  expose d. cbn [fst snd]. repeat split. apply lookup_insert_eq.
Qed.

Lemma simulation_reset_keeps_cache_witness :
  let d := new_driver true [] in
  _utility_reset d = (Return tt, d) /\
  _utility_reset_with_defaults d = (Return tt, d) /\
  let run := (_set_measurement_function (PyStr "period") ;;;
              _utility_reset ;;;
              _get_measurement_function) d in
  fst run = Return (PyStr "period") /\
  _cache_valid (snd run) !! "measurement_function" = Some true /\
  no_transport (_set_measurement_function (PyStr "period") ;;;
                _utility_reset ;;;
                _get_measurement_function) d.
Proof.
  apply (simulation_reset_keeps_cache (new_driver true []) "period" "per");
    reflexivity.
Defined.

(** ** Identity, continued *)

(** X7: on the instrument, one identification query serves the three
    identity attributes.  With the flag of the manufacturer not valid and
    a response of at least four fields, the getter of the manufacturer
    sends the query and returns field 0; after it the getters of the
    model, of the firmware revision and of the manufacturer return fields
    1, 3 and 0 and leave the driver as it is. *)
Theorem identity_one_query `{Builtins}
    (d : driver) (response f0 f1 f2 f3 : string) (more rest : list string) :
  _driver_operation_simulate d = false ->
  default false (_cache_valid d !! "identity_instrument_manufacturer") = false ->
  io_pending d = response :: rest ->
  split "," response = f0 :: f1 :: f2 :: f3 :: more ->
  let loaded := snd (_get_identity_instrument_manufacturer d) in
  fst (_get_identity_instrument_manufacturer d) = Return f0 /\
  io_log loaded = (io_log d ++ [EAsk "*IDN?"])%list /\
  io_pending loaded = rest /\
  _get_identity_instrument_model loaded = (Return f1, loaded) /\
  _get_identity_instrument_firmware_revision loaded = (Return f3, loaded) /\
  _get_identity_instrument_manufacturer loaded = (Return f0, loaded).
Proof.
  intros Hsim Hflag Hpending Hsplit. expose d. subst simulate pending.
  unfold _get_identity_instrument_manufacturer, _get_identity_instrument_model,
    _get_identity_instrument_firmware_revision, _load_id_string.
  step_symbolic. rewrite Hflag. step_symbolic. rewrite Hsplit.
  cbn [lookup list_lookup]. step_symbolic.
  repeat match goal with |- _ /\ _ => split end; try reflexivity.
  - rewrite lookup_insert_ne by discriminate. rewrite lookup_insert_eq. reflexivity.
  - rewrite lookup_insert_eq. reflexivity.
  - rewrite lookup_insert_ne by discriminate.
    rewrite lookup_insert_ne by discriminate.
    rewrite lookup_insert_eq. reflexivity.
Qed.

Lemma identity_one_query_witness :
  let d := new_driver false [idn_response] in
  let loaded := snd (_get_identity_instrument_manufacturer d) in
  fst (_get_identity_instrument_manufacturer d) = Return "Agilent Technologies" /\
  io_log loaded = (io_log d ++ [EAsk "*IDN?"])%list /\
  io_pending loaded = [] /\
  _get_identity_instrument_model loaded = (Return "34410A", loaded) /\
  _get_identity_instrument_firmware_revision loaded
    = (Return "2.35-2.35-0.09-46-09", loaded) /\
  _get_identity_instrument_manufacturer loaded = (Return "Agilent Technologies", loaded).
Proof.
  apply (identity_one_query (new_driver false [idn_response]) idn_response
           "Agilent Technologies" "34410A" "MY47000000" "2.35-2.35-0.09-46-09" [] []);
    reflexivity.
Defined.

(** X8: in simulation mode, an identity getter whose flag is valid
    returns the stored field; one whose flag is not valid returns the
    text "Not available while simulating", after writing it over the
    three identity fields.  Neither marks anything valid nor makes a
    transport call, so the next call does the same. *)
Theorem simulation_identity `{Builtins} (d : driver) :
  _driver_operation_simulate d = true ->
  _get_identity_instrument_manufacturer d =
    (if default false (_cache_valid d !! "identity_instrument_manufacturer")
     then (Return (_identity_instrument_manufacturer d), d)
     else (Return "Not available while simulating", simulated_identity d)) /\
  _get_identity_instrument_model d =
    (if default false (_cache_valid d !! "identity_instrument_model")
     then (Return (_identity_instrument_model d), d)
     else (Return "Not available while simulating", simulated_identity d)) /\
  _get_identity_instrument_firmware_revision d =
    (if default false (_cache_valid d !! "identity_instrument_firmware_revision")
     then (Return (_identity_instrument_firmware_revision d), d)
     else (Return "Not available while simulating", simulated_identity d)) /\
  _cache_valid (simulated_identity d) = _cache_valid d /\
  no_transport _get_identity_instrument_manufacturer d /\
  no_transport _get_identity_instrument_model d /\
  no_transport _get_identity_instrument_firmware_revision d.
Proof.
  intros Hsim. expose d. subst simulate.
  unfold no_transport, _get_identity_instrument_manufacturer,
    _get_identity_instrument_model, _get_identity_instrument_firmware_revision,
    _load_id_string.
  step_symbolic.
  destruct (default false (flags !! "identity_instrument_manufacturer"));
    destruct (default false (flags !! "identity_instrument_model"));
    destruct (default false (flags !! "identity_instrument_firmware_revision"));
    repeat split.
Qed.

Lemma simulation_identity_witness :
  let d := new_driver true [] in
  _get_identity_instrument_manufacturer d
    = (Return "Not available while simulating", simulated_identity d) /\
  _get_identity_instrument_model d
    = (Return "Not available while simulating", simulated_identity d) /\
  _get_identity_instrument_firmware_revision d
    = (Return "Not available while simulating", simulated_identity d) /\
  _cache_valid (simulated_identity d) = _cache_valid d /\
  no_transport _get_identity_instrument_manufacturer d /\
  no_transport _get_identity_instrument_model d /\
  no_transport _get_identity_instrument_firmware_revision d.
Proof.
  apply (simulation_identity (new_driver true [])). reflexivity.
Defined.

(** X9: on the instrument, an identification response of fewer than four
    fields makes [_load_id_string] raise [IndexError] half-way: field 0
    has already replaced the manufacturer, and field 1, when there is
    one, the model; the firmware revision and the flags are as before. *)
Theorem load_id_string_short_response `{Builtins}
    (d : driver) (response : string) (rest : list string) :
  _driver_operation_simulate d = false ->
  io_pending d = response :: rest ->
  (length (split "," response) < 4)%nat ->
  let fields := split "," response in
  let d' := snd (_load_id_string d) in
  fst (_load_id_string d) = Raise IndexError /\
  fields !! 0%nat = Some (_identity_instrument_manufacturer d') /\
  _identity_instrument_model d' = default (_identity_instrument_model d) (fields !! 1%nat) /\
  _identity_instrument_firmware_revision d' = _identity_instrument_firmware_revision d /\
  _cache_valid d' = _cache_valid d.
Proof.
  intros Hsim Hpending Hshort. cbv zeta.
  pose proof (split_nonempty "," response) as Hnonempty.
  expose d. subst simulate pending.
  unfold _load_id_string. step_symbolic.
  destruct (split "," response) as [|f0 [|f1 [|f2 [|f3 more]]]];
    [contradiction | | | |]; cbn [length] in Hshort; try lia;
    repeat split.
Qed.

Lemma load_id_string_short_response_witness :
  let d := new_driver false ["34410A"] in
  let fields := split "," "34410A" in
  let d' := snd (_load_id_string d) in
  fst (_load_id_string d) = Raise IndexError /\
  fields !! 0%nat = Some (_identity_instrument_manufacturer d') /\
  _identity_instrument_model d' = default (_identity_instrument_model d) (fields !! 1%nat) /\
  _identity_instrument_firmware_revision d' = _identity_instrument_firmware_revision d /\
  _cache_valid d' = _cache_valid d.
Proof.
  apply (load_id_string_short_response (new_driver false ["34410A"]) "34410A" []);
    [reflexivity | reflexivity | vm_compute; lia].
Defined.

(** ** Initialisation *)

(** X10: on the instrument, [initialize] with [id_query] set never gets
    past the identity check when the model has to be read from the
    instrument.  The model is a field of the response split at the
    commas, and the identifier it is compared with contains a comma: the
    call ends with the identifier mismatch when the response has at
    least four fields, with [IndexError] when it has fewer and with the
    transport error when there is none.  The reset that was asked for is
    not sent. *)
Theorem initialize_id_query_rejects `{Builtins}
    (super_initialize : bool -> bool -> M unit) (_clear : M unit)
    (reset : bool) (d opened cleared : driver) :
  super_initialize true reset d = (Return tt, opened) ->
  _driver_operation_simulate opened = false ->
  _clear opened = (Return tt, cleared) ->
  _driver_operation_simulate cleared = false ->
  default false (_cache_valid cleared !! "identity_instrument_model") = false ->
  let run := initialize super_initialize _clear true reset d in
  fst run =
    match io_pending cleared with
    | [] => InitRaise TransportError
    | response :: _ =>
        match split "," response with
        | _ :: model :: _ :: _ :: _ =>
            IdMismatch _instrument_id (slice (String.length _instrument_id) model)
        | _ => InitRaise IndexError
        end
    end /\
  fst run <> Initialized /\
  io_log (snd run) = (io_log cleared ++ [EAsk "*IDN?"])%list.
Proof.
  intros Hsuper Hopened Hclear Hcleared Hflag. cbv zeta.
  unfold initialize, and_then. rewrite Hsuper.
  cbv beta iota delta [bind gets]. rewrite Hopened. cbn [negb]. rewrite Hclear.
  cbv beta iota. rewrite Hcleared. cbn [negb andb].
  clear Hsuper Hclear Hopened d opened.
  expose cleared. subst simulate.
  unfold _get_identity_instrument_model, _load_id_string.
  step_symbolic. rewrite Hflag. step_symbolic.
  destruct pending as [|response rest].
  - repeat split. discriminate.
  - pose proof (split_fields_no_separator "," response) as Hfields.
    destruct (split "," response) as [|f0 [|f1 [|f2 [|f3 more]]]];
      try (repeat split; discriminate).
    cbn [lookup list_lookup]. step_symbolic.
    assert (Hmodel : has_char "," f1 = false).
    { inversion Hfields as [|? ? _ Htail]; subst.
      inversion Htail as [|? ? Hf1 _]; subst. exact Hf1. }
    rewrite (field_is_not_instrument_id f1 Hmodel). cbn [negb fst snd io_log].
    repeat split. discriminate.
Qed.

Lemma initialize_id_query_rejects_witness :
  let d := new_driver false [idn_response] in
  let run := initialize (fun _ _ => ret tt) (_write "*CLS") true true d in
  fst run = IdMismatch _instrument_id "34410A" /\
  fst run <> Initialized /\
  io_log (snd run) = [EWrite "*CLS"; EAsk "*IDN?"].
Proof.
  apply (initialize_id_query_rejects (fun _ _ => ret tt) (_write "*CLS") true
           (new_driver false [idn_response]) (new_driver false [idn_response])
           (snd (_write "*CLS" (new_driver false [idn_response]))));
    reflexivity.
Defined.

(** X11: in simulation mode [initialize] adds nothing to the
    initialisation of the base class, whatever [id_query] and [reset]:
    no interface clear, no identity check, and a reset that does
    nothing. *)
Theorem initialize_in_simulation `{Builtins}
    (super_initialize : bool -> bool -> M unit) (_clear : M unit)
    (id_query reset : bool) (d opened : driver) :
  super_initialize id_query reset d = (Return tt, opened) ->
  _driver_operation_simulate opened = true ->
  initialize super_initialize _clear id_query reset d = (Initialized, opened).
Proof.
  intros Hsuper Hopened.
  unfold initialize, and_then. rewrite Hsuper.
  cbv beta iota delta [bind gets ret]. rewrite Hopened. cbn [negb].
  cbv beta iota. rewrite Hopened. cbn [negb]. rewrite andb_false_r.
  destruct reset; [|reflexivity].
  unfold _utility_reset. cbv beta iota delta [bind gets ret]. rewrite Hopened.
  reflexivity.
Qed.

Lemma initialize_in_simulation_witness :
  let d := new_driver true [] in
  initialize (fun _ _ => ret tt) (_write "*CLS") true true d = (Initialized, d).
Proof.
  apply (initialize_in_simulation (fun _ _ => ret tt) (_write "*CLS") true true
           (new_driver true []) (new_driver true []));
    reflexivity.
Defined.

(** ** Measurements on the instrument *)

(** X12: on the instrument, [fetch] and [read] send one query each,
    [":fetch?"] and [":read?"], and return [float] of the response, or
    raise what [float] raises once the response has been taken; the
    argument [max_time] plays no part.  [initiate] followed by [fetch]
    is one write followed by one query. *)
Theorem measurement_on_instrument `{Builtins}
    (d : driver) (max_time : pyval) (response : string) (rest : list string) :
  _driver_operation_simulate d = false ->
  io_pending d = response :: rest ->
  let value := match float_of_string response with
               | inr x => Return x
               | inl e => Raise e
               end in
  _measurement_fetch max_time d
    = (value, with_io (io_log d ++ [EAsk ":fetch?"]) rest d) /\
  _measurement_read max_time d
    = (value, with_io (io_log d ++ [EAsk ":read?"]) rest d) /\
  (_measurement_initiate ;;; _measurement_fetch max_time) d
    = (value, with_io (io_log d ++ [EWrite ":initiate"; EAsk ":fetch?"]) rest d).
Proof.
  intros Hsim Hpending. expose d. subst simulate pending.
  unfold _measurement_fetch, _measurement_read, _measurement_initiate.
  step_symbolic. rewrite <- app_assoc. cbn [app].
  destruct (float_of_string response); repeat split.
Qed.

Lemma measurement_on_instrument_witness :
  let d := new_driver false ["-12"] in
  _measurement_fetch PyNone d
    = (Return (-12)%float, with_io (io_log d ++ [EAsk ":fetch?"]) [] d) /\
  _measurement_read PyNone d
    = (Return (-12)%float, with_io (io_log d ++ [EAsk ":read?"]) [] d) /\
  (_measurement_initiate ;;; _measurement_fetch PyNone) d
    = (Return (-12)%float,
       with_io (io_log d ++ [EWrite ":initiate"; EAsk ":fetch?"]) [] d).
Proof.
  exact (measurement_on_instrument (new_driver false ["-12"]) PyNone "-12" []
           eq_refl eq_refl).
Defined.

(** ** Self test, continued *)

(** X13: on the instrument, [self_test] writes, waits its 40 seconds and
    reads in every case; a missing response ends in the transport error
    and a response that [int] does not convert in the exception of the
    conversion, both after the wait. *)
Theorem self_test_outcome `{Builtins} (d : driver) :
  _driver_operation_simulate d = false ->
  io_log (snd (_utility_self_test d))
    = (io_log d ++ [EWrite "*TST?"; ESleep 40; ERead])%list /\
  io_pending (snd (_utility_self_test d)) = tail (io_pending d) /\
  fst (_utility_self_test d) =
    match io_pending d with
    | [] => Raise TransportError
    | response :: _ =>
        match Z_of_string response with
        | inr code =>
            Return (code, if Z.eqb code 0 then "Self test passed" else "Self test failed")
        | inl e => Raise e
        end
    end.
Proof.
  intros Hsim. expose d. subst simulate.
  unfold _utility_self_test. step_symbolic.
  rewrite <- !app_assoc. cbn [app].
  destruct pending as [|response rest]; [repeat split|].
  step_symbolic. destruct (Z_of_string response) as [e | code]; [repeat split|].
  destruct (Z.eqb code 0); repeat split.
Qed.

Lemma self_test_outcome_witness :
  let d := new_driver false ["passed"] in
  io_log (snd (_utility_self_test d))
    = (io_log d ++ [EWrite "*TST?"; ESleep 40; ERead])%list /\
  io_pending (snd (_utility_self_test d)) = [] /\
  fst (_utility_self_test d) = Raise ValueError.
Proof.
  exact (self_test_outcome (new_driver false ["passed"]) eq_refl).
Defined.

(** ** Measurement function, continued *)

(** X14: on the instrument, a get of [measurement_function] that has to
    refresh fails and repairs nothing: the flag stays as it was, so the
    next get sends the query again and fails again.  A set repairs it:
    after it the getter returns the value that was set, without a
    query. *)
Theorem measurement_function_get_needs_set `{Builtins}
    (d : driver) (r1 r2 f token : string) (rest : list string) :
  _driver_operation_simulate d = false ->
  default false (_cache_valid d !! "measurement_function") = false ->
  io_pending d = r1 :: r2 :: rest ->
  assoc f MeasurementFunctionMapping = Some token ->
  let failed1 := snd (_get_measurement_function d) in
  let failed2 := snd (_get_measurement_function failed1) in
  let repaired := snd (_set_measurement_function (PyStr f) failed2) in
  fst (_get_measurement_function d) = Raise (NameError "TriggerTypeMapping") /\
  fst (_get_measurement_function failed1) = Raise (NameError "TriggerTypeMapping") /\
  io_log failed2 = (io_log d ++ [EAsk ":sense:function?"; EAsk ":sense:function?"])%list /\
  io_pending failed2 = rest /\
  _measurement_function failed2 = _measurement_function d /\
  _get_measurement_function repaired = (Return (PyStr f), repaired).
Proof.
  intros Hsim Hflag Hpending Hassoc. cbv zeta.
  rewrite (get_measurement_function_refresh d r1 (r2 :: rest) Hsim Hflag Hpending).
  cbn [fst snd].
  rewrite (get_measurement_function_refresh _ r2 rest)
    by (expose d; assumption || reflexivity).
  cbn [fst snd].
  rewrite set_measurement_function_known with (token := token) by exact Hassoc.
  cbn [snd].
  rewrite get_measurement_function_cached by (right; expose d; apply lookup_insert_eq).
  expose d. subst simulate. cbn. rewrite <- app_assoc. repeat split.
Qed.

Lemma measurement_function_get_needs_set_witness :
  let d := new_driver false ["volt"; "volt"] in
  let failed1 := snd (_get_measurement_function d) in
  let failed2 := snd (_get_measurement_function failed1) in
  let repaired := snd (_set_measurement_function (PyStr "diode") failed2) in
  fst (_get_measurement_function d) = Raise (NameError "TriggerTypeMapping") /\
  fst (_get_measurement_function failed1) = Raise (NameError "TriggerTypeMapping") /\
  io_log failed2 = (io_log d ++ [EAsk ":sense:function?"; EAsk ":sense:function?"])%list /\
  io_pending failed2 = [] /\
  _measurement_function failed2 = _measurement_function d /\
  _get_measurement_function repaired = (Return (PyStr "diode"), repaired).
Proof.
  apply (measurement_function_get_needs_set (new_driver false ["volt"; "volt"])
           "volt" "volt" "diode" "diod" []);
    reflexivity.
Defined.

(** ** Simulation mode never reaches the transport *)




(** ** What no method changes *)

Lemma keeps_ret {A} (a : A) : keeps_configuration (ret a).
Proof. intros d. split; reflexivity. Qed.

Lemma keeps_raise {A} (e : exn) : keeps_configuration (@raise A e).
Proof. intros d. split; reflexivity. Qed.

Lemma keeps_gets {A} (f : driver -> A) : keeps_configuration (gets f).
Proof. intros d. split; reflexivity. Qed.

Lemma keeps_lift {A} (r : exn + A) : keeps_configuration (lift r).
Proof. destruct r; [apply keeps_raise | apply keeps_ret]. Qed.



Lemma keeps_ask (cmd : string) : keeps_configuration (_ask cmd).
Proof. intros d. unfold _ask. destruct (io_pending d); expose d; split; reflexivity. Qed.

Lemma keeps_read : keeps_configuration _read.
Proof. intros d. unfold _read. destruct (io_pending d); expose d; split; reflexivity. Qed.

Lemma keeps_load_global (name : string) : keeps_configuration (load_global name).
Proof.
  unfold load_global. destruct (assoc name module_globals); [apply keeps_ret | apply keeps_raise].
Qed.

Lemma keeps_contains (obj : pyobj) (value : pyval) : keeps_configuration (contains obj value).
Proof.
  destruct obj; try apply keeps_raise. destruct value; apply keeps_ret.
Qed.

Lemma keeps_getitem (obj : pyobj) (key : pyval) : keeps_configuration (getitem obj key).
Proof.
  destruct obj; try apply keeps_raise. destruct key; try apply keeps_raise.
  cbn [getitem]. destruct (assoc s items); [apply keeps_ret | apply keeps_raise].
Qed.

Lemma keeps_items_of (obj : pyobj) : keeps_configuration (items_of obj).
Proof. destruct obj; try apply keeps_raise. apply keeps_ret. Qed.

Lemma keeps_raise_instance {A} (obj : pyobj) : keeps_configuration (@raise_instance A obj).
Proof. destruct obj; apply keeps_raise. Qed.

Lemma keeps_subscript {A} (lst : list A) (i : nat) : keeps_configuration (subscript lst i).
Proof. unfold subscript. destruct (lst !! i); [apply keeps_ret | apply keeps_raise]. Qed.

Create HintDb keeps discriminated.

#[local] Hint Resolve keeps_ret keeps_raise keeps_gets keeps_lift keeps_ask keeps_read
  keeps_load_global keeps_contains keeps_getitem keeps_items_of keeps_raise_instance
  keeps_subscript : keeps.



(** ** Initialisation, continued *)

(** X17: on the instrument, [initialize] without [id_query] clears the
    interface and asks the instrument nothing; with [reset] it then
    writes the reset command and leaves no flag valid, and without it
    stops there. *)
Theorem initialize_without_id_query `{Builtins}
    (super_initialize : bool -> bool -> M unit) (_clear : M unit)
    (reset : bool) (d opened cleared : driver) :
  super_initialize false reset d = (Return tt, opened) ->
  _driver_operation_simulate opened = false ->
  _clear opened = (Return tt, cleared) ->
  _driver_operation_simulate cleared = false ->
  initialize super_initialize _clear false reset d =
    (Initialized,
     if reset then
       with_cache_valid ((fun _ => false) <$> _cache_valid cleared)
         (with_io (io_log cleared ++ [EWrite "*RST"]) (io_pending cleared) cleared)
     else cleared).
Proof.
  intros Hsuper Hopened Hclear Hcleared.
  unfold initialize, and_then. rewrite Hsuper.
  cbv beta iota delta [bind gets]. rewrite Hopened. cbn [negb]. rewrite Hclear.
  cbv beta iota. cbn [andb].
  destruct reset; [|reflexivity].
  unfold _utility_reset. cbv beta iota delta [bind gets]. rewrite Hcleared.
  expose cleared. reflexivity.
Qed.

Lemma initialize_without_id_query_witness :
  let d := new_driver false [idn_response] in
  let cleared := snd (_write "*CLS" d) in
  initialize (fun _ _ => ret tt) (_write "*CLS") false true d =
    (Initialized,
     with_cache_valid ((fun _ => false) <$> _cache_valid cleared)
       (with_io (io_log cleared ++ [EWrite "*RST"]) (io_pending cleared) cleared)).
Proof.
  apply (initialize_without_id_query (fun _ _ => ret tt) (_write "*CLS") true
           (new_driver false [idn_response]) (new_driver false [idn_response])
           (snd (_write "*CLS" (new_driver false [idn_response]))));
    reflexivity.
Defined.

(** ** The forward table *)

Lemma assoc_In {A} (key : string) (l : list (string * A)) (v : A) :
  assoc key l = Some v -> In (key, v) l.
Proof.
  induction l as [|[k w] rest IH]; cbn [assoc]; [discriminate|].
  destruct (String.eqb_spec k key) as [-> | Hne].
  - intros [= ->]. left. reflexivity.
  - intros Hrest. right. apply IH. exact Hrest.
Qed.

(** X18: no two names of the forward table share a token, so distinct
    measurement functions are written as distinct commands, and the
    selection by value finds exactly the name for every token of the
    table. *)
Theorem forward_table_injective (f g token : string) :
  assoc f MeasurementFunctionMapping = Some token ->
  assoc g MeasurementFunctionMapping = Some token ->
  f = g /\ keys_of_value MeasurementFunctionMapping token = [f].
Proof.
  intros Hf Hg. apply assoc_In in Hf. apply assoc_In in Hg.
  cbn [In MeasurementFunctionMapping] in Hf, Hg.
  repeat (destruct Hf as [Hf | Hf]; [injection Hf as <- <- |]); [.. | contradiction];
    repeat (destruct Hg as [Hg | Hg];
            [first [discriminate Hg | injection Hg as <-] |]);
    try contradiction; split; reflexivity.
Qed.

Lemma forward_table_injective_witness :
  "ac_volts" = "ac_volts" /\
  keys_of_value MeasurementFunctionMapping "volt:ac" = ["ac_volts"].
Proof.
  apply (forward_table_injective "ac_volts" "ac_volts" "volt:ac"); reflexivity.
Defined.
